(** * starknet.py: the account client and the finality poller

    A shallow embedding of [starknet/net/client.py] and
    [starknet/net/account/account_client.py].

    The two classes talk to three collaborators that live outside the
    repository: the feeder gateway (reads), the gateway (submissions) and the
    StarkWare library (hashing, key derivation, signing, and the
    [InvokeFunction] objects, whose fields it validates).  The calls to the
    two gateways, to the signer and to [asyncio.sleep] are recorded, in
    order, in a trace; the gateways answer from the trace so far, so a
    scripted or stateful network is just a particular oracle.  Every call
    into the library that can raise is a result that can be [Raise]. *)

From stdpp Require Import base option list strings gmap.
From Stdlib Require Import ZArith Lia Ascii.

Open Scope string_scope.
Open Scope list_scope.
Open Scope Z_scope.

(** ** Values exchanged with the network *)

(** A JSON value as [json.loads] delivers it ([JsonObject = Dict[str, Any]]
    maps strings to these): [None], [bool], [int], [float] (kept as the
    number's literal), [str], [list] and [dict]. *)
#[warnings="-register-all"] Inductive JsonValue :=
| JNull
| JBool (b : bool)
| JInt (n : Z)
| JFloat (literal : string)
| JStr (s : string)
| JList (items : list JsonValue)
| JObj (members : list (string * JsonValue)).

Abbreviation JsonObject := (gmap string JsonValue).

(** [CastableToHash = Union[int, str]]. *)
Inductive CastableToHash :=
| HashInt (n : Z)
| HashStr (s : string).

(** [starkware.starknet.definitions.transaction_type.TransactionType]. *)
Inductive TransactionType := DEPLOY | INVOKE_FUNCTION.

Global Instance TransactionType_eq_dec : EqDecision TransactionType.
Proof. solve_decision. Defined.

(** The attributes of a gateway transaction that the client reads.  The
    object is duck-typed: [tx_type] is looked at first, the four other fields
    only on the invoke path. *)
Record Transaction := mkTransaction {
  tx_type : TransactionType;
  contract_address : Z;
  entry_point_selector : Z;
  calldata : list Z;
  signature : list Z
}.

(** The object that a call [InvokeFunction(contract_address=..., ...)]
    builds when the library accepts the values: the class fixes [tx_type] to
    [INVOKE_FUNCTION]. *)
Definition InvokeFunction_object (contract_address entry_point_selector : Z)
    (calldata signature : list Z) : Transaction :=
  mkTransaction INVOKE_FUNCTION contract_address entry_point_selector
                calldata signature.

(** Modelled from the spec: [starknet/constants.py], which declares the enum
    [TxStatus], is not among the sources.  Section 3 of the specification
    lists its members as NOT_RECEIVED, RECEIVED, PENDING, ACCEPTED_ONCHAIN and
    REJECTED, "plus an unknown catch-all"; [OTHER_STATUS] stands for any
    further member the enum may declare. *)
Inductive TxStatus :=
| NOT_RECEIVED
| RECEIVED
| PENDING
| REJECTED
| ACCEPTED_ONCHAIN
| OTHER_STATUS (name : string).

(** ** Exceptions *)

(** The three [Exception(f"...")] raised by the poller keep the interpolated
    value instead of the formatted text. *)
Inductive exn :=
| TypeError (msg : string)
| ValueError (msg : string)
| KeyError (key : JsonValue)
| IndexError
| TxRejected (tx_hash : option CastableToHash)
| TxNotReceived (tx_hash : option CastableToHash)
| UnknownStatus (status : TxStatus)
| AssertionError (msg : string)
| StarkException (msg : string)
| ExternalError (what : string).

Inductive Result (A : Type) :=
| Ok (a : A)
| Raise (e : exn).
Arguments Ok {A} a.
Arguments Raise {A} e.

(** ** The trace of calls that leave the process *)

Inductive Event :=
| FeederCallContract (invoke_tx : Transaction)
                     (block_hash : option CastableToHash)
                     (block_number : option Z)
| FeederGetTransaction (tx_hash : option CastableToHash) (tx_id : option Z)
| GatewayAddTransaction (tx : Transaction) (token : option string)
| Sign (msg_hash priv_key : Z)
| Sleep (delay : Z).

Abbreviation Trace := (list Event).

(** Which events are network calls (the signer and the timer are local). *)
Definition is_network_call (ev : Event) : bool :=
  match ev with
  | FeederCallContract _ _ _ | FeederGetTransaction _ _
  | GatewayAddTransaction _ _ => true
  | Sign _ _ | Sleep _ => false
  end.

(** ** The monad of client code

    A computation starts from the trace so far and ends with a value or a
    raised exception, and the trace extended by the calls it made.  An
    exception keeps the calls made before it. *)
Definition M (A : Type) : Type := Trace → Result A * Trace.

Global Instance M_ret : MRet M := λ A a t, (Ok a, t).
Global Instance M_bind : MBind M := λ A B f m t,
  match m t with
  | (Ok a, t') => f a t'
  | (Raise e, t') => (Raise e, t')
  end.

Definition raise {A} (e : exn) : M A := λ t, (Raise e, t).

(** A local call that may raise and makes no call of its own. *)
Definition lift_result {A} (r : Result A) : M A := λ t, (r, t).

(** Call a collaborator: [oracle] answers from the trace so far, [ev] is
    logged whether the call succeeds or raises. *)
Definition perform {A} (ev : Event) (oracle : Trace → Result A) : M A :=
  λ t, (oracle t, t ++ [ev]).

(** [d[key]] on a dict and [l[0]] on a list. *)
Definition dict_getitem {V} (d : gmap string V) (key : string) : M V :=
  match d !! key with
  | Some v => mret v
  | None => raise (KeyError (JStr key))
  end.

Definition list_getitem0 {A} (l : list A) : M A :=
  match l with
  | x :: _ => mret x
  | [] => raise IndexError
  end.

(** [[f(v) for v in l]] for a fallible [f]: the first failure ends it. *)
Fixpoint list_comprehension {A B} (f : A → Result B) (l : list A) : M (list B) :=
  match l with
  | [] => mret []
  | v :: l' =>
      match f v with
      | Ok b => bs ← list_comprehension f l'; mret (b :: bs)
      | Raise e => raise e
      end
  end.

Definition asyncio_sleep (delay : Z) : M () :=
  perform (Sleep delay) (λ _, Ok ()).

(** ** Collaborators *)

(** What the two modules take from elsewhere: the StarkWare crypto and ABI
    helpers, the validation that the library's [InvokeFunction] runs on its
    fields when an object is built, the builtin [int(v, 16)], and the names
    of any members of [TxStatus] beyond the five listed above.  The hash,
    the key derivation, the signer and the validation can each refuse their
    arguments by raising. *)
Class Environment := {
  compute_hash_on_elements : list Z → Result Z;
  private_to_stark_key : Z → Result Z;
  sign : Z → Z → Result (Z * Z);
  get_selector_from_name : string → Z;
  InvokeFunction_validate : Z → Z → list Z → list Z → Result ();
  int_base16 : string → Result Z;
  TxStatus_other_member : string → bool
}.

(** [FeederGatewayClient] and [GatewayClient]: each endpoint answers from
    the calls made so far and its arguments. *)
Record FeederGatewayClient := {
  fg_call_contract :
    Trace → Transaction → option CastableToHash → option Z →
    Result (gmap string (list string));
  fg_get_transaction :
    Trace → option CastableToHash → option Z → Result JsonObject
}.

Record GatewayClient := {
  gw_add_transaction :
    Trace → Transaction → option string → Result (gmap string Z)
}.

(** ** [starknet/net/client.py] *)

Record Client := {
  _feeder_gateway : FeederGatewayClient;
  _gateway : GatewayClient
}.

(** The outcome of polling: a returned pair, or [StillPolling] when the
    bounded unrolling of [while True] ends before the loop does. *)
Inductive Polled :=
| Returned (block_number : JsonValue) (status : TxStatus)
| StillPolling.

Section ClientMethods.
Context `{Environment}.

(** [TxStatus[name]]: the enum's lookup of a member by name, a dictionary
    lookup with [name] as the key.  A list or a dict cannot be hashed. *)
Definition TxStatus_getitem (name : JsonValue) : M TxStatus :=
  match name with
  | JStr s =>
      if decide (s = "NOT_RECEIVED") then mret NOT_RECEIVED
      else if decide (s = "RECEIVED") then mret RECEIVED
      else if decide (s = "PENDING") then mret PENDING
      else if decide (s = "REJECTED") then mret REJECTED
      else if decide (s = "ACCEPTED_ONCHAIN") then mret ACCEPTED_ONCHAIN
      else if TxStatus_other_member s then mret (OTHER_STATUS s)
      else raise (KeyError name)
  | JList _ => raise (TypeError "unhashable type: 'list'")
  | JObj _ => raise (TypeError "unhashable type: 'dict'")
  | JNull | JBool _ | JInt _ | JFloat _ => raise (KeyError name)
  end.

Definition Client_call_contract (self : Client) (invoke_tx : Transaction)
    (block_hash : option CastableToHash) (block_number : option Z)
    : M (list Z) :=
  response ← perform (FeederCallContract invoke_tx block_hash block_number)
               (λ t, fg_call_contract (_feeder_gateway self) t
                       invoke_tx block_hash block_number);
  result ← dict_getitem response "result";
  list_comprehension int_base16 result.

Definition Client_get_transaction (self : Client)
    (tx_hash : option CastableToHash) (tx_id : option Z) : M JsonObject :=
  perform (FeederGetTransaction tx_hash tx_id)
    (λ t, fg_get_transaction (_feeder_gateway self) t tx_hash tx_id).

Definition Client_add_transaction (self : Client) (tx : Transaction)
    (token : option string) : M (gmap string Z) :=
  perform (GatewayAddTransaction tx token)
    (λ t, gw_add_transaction (_gateway self) t tx token).

(** The [if]/[elif] chain of the loop body (lines 182-193): [Some] is a
    [return], [None] falls through to the end of the body. *)
Definition wait_for_tx_verdict (tx_hash : option CastableToHash)
    (wait_for_accept first_run : bool) (result : JsonObject)
    (status : TxStatus) : M (option (JsonValue * TxStatus)) :=
  match status with
  | ACCEPTED_ONCHAIN =>
      block_number ← dict_getitem result "block_number";
      mret (Some (block_number, status))
  | PENDING =>
      if negb wait_for_accept
         && bool_decide (is_Some (result !! "block_number"))
      then block_number ← dict_getitem result "block_number";
           mret (Some (block_number, status))
      else mret None
  | REJECTED => raise (TxRejected tx_hash)
  | NOT_RECEIVED =>
      if negb first_run then raise (TxNotReceived tx_hash) else mret None
  | RECEIVED => mret None
  | OTHER_STATUS _ => raise (UnknownStatus status)
  end.

(** One pass through the body of [while True]. *)
Definition wait_for_tx_iteration (self : Client)
    (tx_hash : option CastableToHash) (wait_for_accept : bool)
    (check_interval : Z) (first_run : bool)
    : M (option (JsonValue * TxStatus)) :=
  result ← Client_get_transaction self tx_hash None;
  name ← dict_getitem result "status";
  status ← TxStatus_getitem name;
  verdict ← wait_for_tx_verdict tx_hash wait_for_accept first_run
              result status;
  match verdict with
  | Some v => mret (Some v)
  | None => _ ← asyncio_sleep check_interval; mret None
  end.

(** [while True], unrolled at most [fuel] times; [first_run] is [False]
    from the second pass on. *)
Fixpoint wait_for_tx_loop (fuel : nat) (self : Client)
    (tx_hash : option CastableToHash) (wait_for_accept : bool)
    (check_interval : Z) (first_run : bool) : M Polled :=
  match fuel with
  | O => mret StillPolling
  | S fuel' =>
      verdict ← wait_for_tx_iteration self tx_hash wait_for_accept
                  check_interval first_run;
      match verdict with
      | Some (block_number, status) => mret (Returned block_number status)
      | None =>
          wait_for_tx_loop fuel' self tx_hash wait_for_accept
            check_interval false
      end
  end.

(** [wait_for_accept] is only ever tested by [not], so [None] behaves as
    [False]; [check_interval] is a number of seconds. *)
Definition Client_wait_for_tx (fuel : nat) (self : Client)
    (tx_hash : option CastableToHash) (wait_for_accept : bool)
    (check_interval : Z) : M Polled :=
  if bool_decide (check_interval ≤ 0)
  then raise (ValueError "check_interval has to bigger than 0.")
  else wait_for_tx_loop fuel self tx_hash wait_for_accept
         check_interval true.

End ClientMethods.

(** ** Vocabulary for statements about the poller *)

Section PollerVocabulary.
Context `{Environment}.

(** What one poll decides from the response alone (lines 180-193 of
    [client.py], without the request and the sleep around them). *)
Definition verdict_of_response (tx_hash : option CastableToHash)
    (wait_for_accept first_run : bool) (result : JsonObject)
    : M (option (JsonValue * TxStatus)) :=
  name ← dict_getitem result "status";
  status ← TxStatus_getitem name;
  wait_for_tx_verdict tx_hash wait_for_accept first_run result status.

End PollerVocabulary.

(** The trace at the start of poll [k] (counted from 0) when every earlier
    poll fell through to the sleep. *)
Definition poll_trace (t0 : Trace) (tx_hash : option CastableToHash)
    (check_interval : Z) (k : nat) : Trace :=
  t0 ++ mjoin (replicate k [FeederGetTransaction tx_hash None;
                            Sleep check_interval]).

(** The value of [first_run] at poll [k] of a loop entered with [fr]. *)
Definition first_run_at (fr : bool) (k : nat) : bool :=
  match k with O => fr | S _ => false end.

(** ** [starknet/net/account/account_client.py] *)

Record KeyPair := {
  private_key : Z;
  public_key : Z
}.

Record AccountClient := {
  base : Client;          (* the [Client] part reached through [super()] *)
  address : Z;
  _key_pair : KeyPair
}.

Section AccountMethods.
Context `{Environment}.

Definition KeyPair_from_private_key (key : Z) : Result KeyPair :=
  match private_to_stark_key key with
  | Ok pub => Ok {| private_key := key; public_key := pub |}
  | Raise e => Raise e
  end.

(** The constructor call [InvokeFunction(contract_address=..., ...)]: the
    library validates the fields and raises when it refuses one. *)
Definition InvokeFunction (contract_address entry_point_selector : Z)
    (calldata signature : list Z) : Result Transaction :=
  match InvokeFunction_validate contract_address entry_point_selector
          calldata signature with
  | Ok _ =>
      Ok (InvokeFunction_object contract_address entry_point_selector
            calldata signature)
  | Raise e => Raise e
  end.

(** The elements of the list are evaluated in order, so the hash of the
    calldata is taken, and may raise, before the outer hash is called. *)
Definition hash_message (account to selector : Z) (calldata : list Z)
    (nonce : Z) : Result Z :=
  match compute_hash_on_elements calldata with
  | Ok calldata_hash =>
      compute_hash_on_elements
        [account; to; selector; calldata_hash; nonce]
  | Raise e => Raise e
  end.

Definition AccountClient_private_key (self : AccountClient) : Z :=
  private_key (_key_pair self).

(** The call [sign(msg_hash=..., priv_key=...)], logged in the trace. *)
Definition call_sign (msg_hash priv_key : Z) : M (Z * Z) :=
  perform (Sign msg_hash priv_key) (λ _, sign msg_hash priv_key).

Definition AccountClient_add_transaction (self : AccountClient)
    (tx : Transaction) (token : option string) : M (gmap string Z) :=
  if decide (tx_type tx = DEPLOY)
  then Client_add_transaction (base self) tx token
  else
    if negb (bool_decide (signature tx = []))
    then raise (TypeError
                  "Adding signatures to a signer tx currently isn't supported")
    else
      query ← lift_result
                (InvokeFunction (address self)
                   (get_selector_from_name "get_nonce") [] []);
      result ← Client_call_contract (base self) query None None;
      nonce ← list_getitem0 result;
      msg_hash ← lift_result
                   (hash_message (address self) (contract_address tx)
                      (entry_point_selector tx) (calldata tx) nonce);
      '(r, s) ← call_sign msg_hash (AccountClient_private_key self);
      wrapped ← lift_result
                  (InvokeFunction (address self)
                     (get_selector_from_name "execute")
                     ([contract_address tx; entry_point_selector tx;
                       Z.of_nat (length (calldata tx))]
                        ++ calldata tx ++ [nonce])
                     [r; s]);
      Client_add_transaction (base self) wrapped None.

End AccountMethods.

(** What the specification says [hash_message] computes (section 4.1): a
    digest of the calldata sequence first, then a second hash over the
    5-tuple (account, to, selector, calldata_digest, nonce). *)
Definition hash_message_spec (hash : list Z → Result Z)
    (account to selector : Z) (calldata : list Z) (nonce : Z) : Result Z :=
  match hash calldata with
  | Ok calldata_digest =>
      let five_tuple := (account, to, selector, calldata_digest, nonce) in
      let '(a, b, c, d, e) := five_tuple in
      hash [a; b; c; d; e]
  | Raise e => Raise e
  end.

(** ** A small concrete world, to run the definitions *)

Module Demo.

(** A reader for the plain literals a feeder gateway sends: an optional
    ["0x"] or ["0X"], then hexadecimal digits.  It stands in for
    [int(v, 16)], which accepts more (sign, blanks, underscores). *)
Definition hex_digit (c : Ascii.ascii) : option Z :=
  let n := Z.of_N (Ascii.N_of_ascii c) in
  if (48 <=? n) && (n <=? 57) then Some (n - 48)
  else if (97 <=? n) && (n <=? 102) then Some (n - 87)
  else if (65 <=? n) && (n <=? 70) then Some (n - 55)
  else None.

Fixpoint hex_digits (acc : Z) (s : string) : option Z :=
  match s with
  | EmptyString => Some acc
  | String c s' =>
      match hex_digit c with
      | Some d => hex_digits (16 * acc + d) s'
      | None => None
      end
  end.

Definition parse_hex (s : string) : Result Z :=
  let body :=
    match s with
    | String "0"%char (String "x"%char s') => s'
    | String "0"%char (String "X"%char s') => s'
    | _ => s
    end in
  match body with
  | EmptyString => Raise (ValueError "invalid literal for int() with base 16")
  | _ =>
      match hex_digits 0 body with
      | Some n => Ok n
      | None => Raise (ValueError "invalid literal for int() with base 16")
      end
  end.

Definition FIELD_PRIME : Z := 2 ^ 251 + 17 * 2 ^ 192 + 1.

Definition EC_ORDER : Z :=
  3618502788666131213697322783095070105526743751716087489154079457884512865583.

Definition is_felt (x : Z) : bool := (0 <=? x) && (x <? FIELD_PRIME).

(** Toy primitives with the refusals of the library: the hash asserts that
    its elements are field elements, the key derivation that
    [0 < priv_key < EC_ORDER], the signer that the message is below
    [2 ^ 251]; the signer has no check on a zero key and fails on a negative
    one; an [InvokeFunction] needs an address in [(0, 2 ^ 251)] and field
    elements elsewhere.  The values computed are arbitrary. *)
Definition env : Environment := {|
  compute_hash_on_elements := λ l,
    if forallb is_felt l
    then Ok (foldl (λ h x, 31 * h + x) 0 (l ++ [Z.of_nat (length l)])
               `mod` FIELD_PRIME)
    else Raise (AssertionError "element out of the field");
  private_to_stark_key := λ k,
    if bool_decide (0 < k < EC_ORDER) then Ok ((3 * k) `mod` FIELD_PRIME)
    else Raise (AssertionError "0 < priv_key < EC_ORDER");
  sign := λ h k,
    if bool_decide (k < 0) then Raise (ExternalError "negative private key")
    else if bool_decide (0 ≤ h < 2 ^ 251)
         then Ok ((h + k) `mod` 2 ^ 251, (h - k) `mod` 2 ^ 251)
         else Raise (AssertionError "Message not signable.");
  get_selector_from_name := λ name, Z.of_nat (String.length name);
  InvokeFunction_validate := λ address selector calldata signature,
    if bool_decide (0 < address < 2 ^ 251) && is_felt selector
       && forallb is_felt calldata && forallb is_felt signature
    then Ok ()
    else Raise (StarkException "out of range");
  int_base16 := parse_hex;
  TxStatus_other_member := λ _, false
|}.

(** A feeder gateway that answers the [i]-th [get_transaction] with the
    [i]-th entry of [script], and every [call_contract] with
    [{"result": nonce_result}]. *)
Fixpoint polls_so_far (t : Trace) : nat :=
  match t with
  | [] => O
  | FeederGetTransaction _ _ :: t' => S (polls_so_far t')
  | _ :: t' => polls_so_far t'
  end.

Definition scripted_feeder (nonce_result : list string)
    (script : list JsonObject) : FeederGatewayClient := {|
  fg_call_contract := λ _ _ _ _, Ok {[ "result" := nonce_result ]};
  fg_get_transaction := λ t _ _,
    match script !! polls_so_far t with
    | Some response => Ok response
    | None => Raise (ExternalError "script exhausted")
    end
|}.

Definition gateway : GatewayClient := {|
  gw_add_transaction := λ _ _ _,
    Ok {[ "code" := 0; "transaction_hash" := 291 ]}
|}.

Definition client (nonce_result : list string) (script : list JsonObject)
    : Client :=
  {| _feeder_gateway := scripted_feeder nonce_result script;
     _gateway := gateway |}.

Definition account (key : Z) (nonce_result : list string) : AccountClient :=
  {| base := client nonce_result [];
     address := 1000;
     _key_pair := {| private_key := key; public_key := 3 * key |} |}.

(** The same account at another address. *)
Definition account_at (address : Z) (key : Z) (nonce_result : list string)
    : AccountClient :=
  {| base := client nonce_result [];
     address := address;
     _key_pair := {| private_key := key; public_key := 3 * key |} |}.

(** The end-to-end fixture of the specification: contract 77, selector 88,
    calldata [1, 2, 3]. *)
Definition invoke_tx : Transaction :=
  InvokeFunction_object 77 88 [1; 2; 3] [].

Definition presigned_tx : Transaction :=
  InvokeFunction_object 77 88 [1; 2; 3] [11; 12].

Definition signed_deploy_tx : Transaction :=
  {| tx_type := DEPLOY; contract_address := 0; entry_point_selector := 0;
     calldata := [4; 5]; signature := [11; 12] |}.

Definition tx_hash : option CastableToHash := Some (HashInt 291).

Definition status_only (name : string) : JsonObject :=
  {[ "status" := JStr name ]}.

Definition status_in_block (name : string) (block_number : Z) : JsonObject :=
  {[ "status" := JStr name; "block_number" := JInt block_number ]}.

End Demo.

(** ** [AccountClient.create_account] and the constructor it ends with *)

(** [AddressRepresentation = Union[int, str]]. *)
Inductive AddressRepresentation :=
| AddressInt (n : Z)
| AddressStr (s : string).

(** What account creation takes from elsewhere: the network type [Net] and
    the construction of a [Client] for it ([Client.__init__], through
    [net_address_from_net]), [parse_address], StarkWare's
    [get_random_private_key], and [Contract.deploy] applied to the compiled
    account contract, followed by [.address].  The deployment is an
    arbitrary computation of the client monad. *)
Class AccountDeployment := {
  Net : Type;
  Client_init : Net → Result Client;
  parse_address : AddressRepresentation → Result Z;
  get_random_private_key : Trace → Z;
  Contract_deploy : Client → list Z → M AddressRepresentation
}.

(** Python's [not pk] for [pk : Optional[int]]. *)
Definition not_pk (pk : option Z) : bool :=
  match pk with
  | None => true
  | Some k => bool_decide (k = 0)
  end.

Section AccountCreation.
Context `{Environment} `{AccountDeployment}.

(** [AccountClient.__init__(self, address, key_pair, net)]. *)
Definition AccountClient_init (address : AddressRepresentation)
    (key_pair : KeyPair) (net : Net) : Result AccountClient :=
  match Client_init net with
  | Raise e => Raise e
  | Ok client =>
      match parse_address address with
      | Raise e => Raise e
      | Ok parsed =>
          Ok {| base := client; address := parsed; _key_pair := key_pair |}
      end
  end.

Definition AccountClient_create_account (net : Net) (pk : option Z)
    : M AccountClient :=
  pk ← (if not_pk pk
        then λ t, (Ok (get_random_private_key t), t)
        else mret (default 0 pk));
  key_pair ← lift_result (KeyPair_from_private_key pk);
  client ← lift_result (Client_init net);
  account_address ← Contract_deploy client [public_key key_pair];
  lift_result (AccountClient_init account_address key_pair net).

End AccountCreation.

(** ** Vocabulary for statements about traces *)

Definition is_submission (ev : Event) : bool :=
  match ev with GatewayAddTransaction _ _ => true | _ => false end.

(** The name under which [TxStatus] declares a member. *)
Definition TxStatus_name (status : TxStatus) : string :=
  match status with
  | NOT_RECEIVED => "NOT_RECEIVED"
  | RECEIVED => "RECEIVED"
  | PENDING => "PENDING"
  | REJECTED => "REJECTED"
  | ACCEPTED_ONCHAIN => "ACCEPTED_ONCHAIN"
  | OTHER_STATUS name => name
  end.

(** ** More concrete worlds *)

Module DemoNet.

(** A feeder gateway that is down. *)
Definition down_feeder : FeederGatewayClient := {|
  fg_call_contract := λ _ _ _ _, Raise (ExternalError "connection refused");
  fg_get_transaction := λ _ _ _, Raise (ExternalError "connection refused")
|}.

(** A feeder gateway whose answers lack the expected keys. *)
Definition blank_feeder : FeederGatewayClient := {|
  fg_call_contract := λ _ _ _ _, Ok ∅;
  fg_get_transaction := λ _ _ _, Ok ∅
|}.

(** A feeder gateway that reports the same status for ever. *)
Definition stuck_feeder (name : string) : FeederGatewayClient := {|
  fg_call_contract := λ _ _ _ _, Ok {[ "result" := [] ]};
  fg_get_transaction := λ _ _ _, Ok (Demo.status_in_block name 12)
|}.

Definition client_of (feeder : FeederGatewayClient) : Client :=
  {| _feeder_gateway := feeder; _gateway := Demo.gateway |}.

Definition account_of (feeder : FeederGatewayClient) : AccountClient :=
  {| base := client_of feeder; address := 1000;
     _key_pair := {| private_key := 5; public_key := 15 |} |}.

(** Account creation on a single network: the random key is 42, the
    deployment submits a deploy transaction carrying the constructor
    arguments and answers with address 4096. *)
Definition deployment : AccountDeployment := {|
  Net := unit;
  Client_init := λ _, Ok (Demo.client ["0x0"] []);
  parse_address := λ a,
    match a with
    | AddressInt n => Ok n
    | AddressStr s => Demo.parse_hex s
    end;
  get_random_private_key := λ _, 42;
  Contract_deploy := λ client args,
    _ ← Client_add_transaction client
          {| tx_type := DEPLOY; contract_address := 0;
             entry_point_selector := 0; calldata := args; signature := [] |}
          None;
    mret (AddressInt 4096)
|}.

End DemoNet.

(** * Properties *)

(** ** Running the monad *)

Lemma run_bind {A B} (m : M A) (f : A → M B) (t : Trace) :
  (m ≫= f) t =
  match m t with
  | (Ok a, t') => f a t'
  | (Raise e, t') => (Raise e, t')
  end.
Proof. reflexivity. Qed.

Lemma run_ret {A} (a : A) (t : Trace) : mret (M := M) a t = (Ok a, t).
Proof. reflexivity. Qed.

Lemma run_raise {A} (e : exn) (t : Trace) : raise (A := A) e t = (Raise e, t).
Proof. reflexivity. Qed.

Lemma run_perform {A} (ev : Event) (oracle : Trace → Result A) (t : Trace) :
  perform ev oracle t = (oracle t, t ++ [ev]).
Proof. reflexivity. Qed.

Ltac run :=
  repeat (rewrite ?run_bind, ?run_ret, ?run_raise, ?run_perform; simpl).

(** Local steps leave the trace alone. *)
Lemma dict_getitem_run {V} (d : gmap string V) (key : string) (t : Trace) :
  dict_getitem d key t =
  (match d !! key with Some v => Ok v | None => Raise (KeyError (JStr key)) end,
   t).
Proof. unfold dict_getitem. by destruct (d !! key). Qed.

Lemma list_getitem0_run {A} (l : list A) (t : Trace) :
  list_getitem0 l t =
  (match l with x :: _ => Ok x | [] => Raise IndexError end, t).
Proof. by destruct l. Qed.

Lemma list_comprehension_trace {A B} (f : A → Result B) (l : list A)
    (t : Trace) :
  (list_comprehension f l t).2 = t.
Proof.
  induction l as [|v l IH]; simpl; [done|].
  destruct (f v) as [b|e]; [|done].
  rewrite run_bind. destruct (list_comprehension f l t) as [[bs|e] t'];
    simpl in *; by subst.
Qed.

Lemma app_eq_self_inv {A} (l k : list A) : l ++ k = l → k = [].
Proof.
  intros Heq. apply (app_inv_head l). by rewrite app_nil_r.
Qed.

(** ** The base client *)

Section ClientFacts.
Context `{Environment}.

Lemma Client_call_contract_trace self invoke_tx block_hash block_number t :
  (Client_call_contract self invoke_tx block_hash block_number t).2 =
  t ++ [FeederCallContract invoke_tx block_hash block_number].
Proof.
  unfold Client_call_contract. run.
  destruct (fg_call_contract _ _ _ _ _) as [response|e]; [|done].
  rewrite run_bind, dict_getitem_run.
  destruct (response !! "result") as [result|]; [|done].
  apply list_comprehension_trace.
Qed.

Lemma Client_add_transaction_run self tx token t :
  Client_add_transaction self tx token t =
  (gw_add_transaction (_gateway self) t tx token,
   t ++ [GatewayAddTransaction tx token]).
Proof. reflexivity. Qed.

Lemma Client_get_transaction_run self tx_hash tx_id t :
  Client_get_transaction self tx_hash tx_id t =
  (fg_get_transaction (_feeder_gateway self) t tx_hash tx_id,
   t ++ [FeederGetTransaction tx_hash tx_id]).
Proof. reflexivity. Qed.

End ClientFacts.

(** ** The account client: the three paths of [add_transaction] *)

Section AccountFacts.
Context `{Environment}.

Lemma InvokeFunction_run contract_address entry_point_selector calldata
    signature :
  InvokeFunction contract_address entry_point_selector calldata signature =
  match InvokeFunction_validate contract_address entry_point_selector
          calldata signature with
  | Ok _ =>
      Ok (InvokeFunction_object contract_address entry_point_selector
            calldata signature)
  | Raise e => Raise e
  end.
Proof. reflexivity. Qed.

(** The invoke path written out: building the nonce query, the query, the
    hash, the signature, building the wrapped transaction, the submission;
    each step ends the run if it raises. *)
Lemma add_transaction_invoke_run self tx token t0 :
  tx_type tx ≠ DEPLOY →
  signature tx = [] →
  AccountClient_add_transaction self tx token t0 =
  let query :=
    InvokeFunction_object (address self)
      (get_selector_from_name "get_nonce") [] [] in
  let t1 := t0 ++ [FeederCallContract query None None] in
  match InvokeFunction_validate (address self)
          (get_selector_from_name "get_nonce") [] [] with
  | Raise e => (Raise e, t0)
  | Ok _ =>
      match (Client_call_contract (base self) query None None t0).1 with
      | Raise e => (Raise e, t1)
      | Ok [] => (Raise IndexError, t1)
      | Ok (nonce :: _) =>
          match hash_message (address self) (contract_address tx)
                  (entry_point_selector tx) (calldata tx) nonce with
          | Raise e => (Raise e, t1)
          | Ok msg_hash =>
              let t2 :=
                t1 ++ [Sign msg_hash (AccountClient_private_key self)] in
              match sign msg_hash (AccountClient_private_key self) with
              | Raise e => (Raise e, t2)
              | Ok (r, s) =>
                  let wrapped_calldata :=
                    contract_address tx :: entry_point_selector tx
                      :: Z.of_nat (length (calldata tx))
                      :: calldata tx ++ [nonce] in
                  match InvokeFunction_validate (address self)
                          (get_selector_from_name "execute")
                          wrapped_calldata [r; s] with
                  | Raise e => (Raise e, t2)
                  | Ok _ =>
                      let wrapped :=
                        InvokeFunction_object (address self)
                          (get_selector_from_name "execute")
                          wrapped_calldata [r; s] in
                      (gw_add_transaction (_gateway (base self)) t2 wrapped
                         None,
                       t2 ++ [GatewayAddTransaction wrapped None])
                  end
              end
          end
      end
  end.
Proof.
  intros Htype Hsig. unfold AccountClient_add_transaction.
  destruct (decide (tx_type tx = DEPLOY)) as [|_]; [done|].
  rewrite Hsig, bool_decide_eq_true_2 by done. simpl.
  rewrite run_bind. unfold lift_result at 1. rewrite InvokeFunction_run.
  destruct (InvokeFunction_validate _ _ [] []) as [[]|e]; [|done].
  rewrite run_bind.
  pose proof (Client_call_contract_trace (base self)
    (InvokeFunction_object (address self)
       (get_selector_from_name "get_nonce") [] [])
    None None t0) as Htrace.
  destruct (Client_call_contract _ _ _ _ _) as [[result|e] t1];
    simpl in Htrace; subst t1; simpl; [|done].
  rewrite run_bind, list_getitem0_run.
  destruct result as [|nonce rest]; [done|].
  rewrite run_bind. unfold lift_result at 1.
  destruct (hash_message _ _ _ _ _) as [msg_hash|e]; [|done].
  rewrite run_bind. unfold call_sign. rewrite run_perform.
  destruct (sign _ _) as [[r s]|e]; [|done].
  rewrite run_bind. unfold lift_result. rewrite InvokeFunction_run. simpl.
  destruct (InvokeFunction_validate _ _ _ _) as [[]|e]; [|done].
  by rewrite Client_add_transaction_run.
Qed.

Lemma from_private_key_derives key pair :
  KeyPair_from_private_key key = Ok pair →
  private_key pair = key ∧ private_to_stark_key key = Ok (public_key pair).
Proof.
  unfold KeyPair_from_private_key.
  destruct (private_to_stark_key key) as [pub|e]; [|done].
  by intros [= <-].
Qed.

Lemma add_transaction_deploy_run self tx token t0 :
  tx_type tx = DEPLOY →
  AccountClient_add_transaction self tx token t0 =
  Client_add_transaction (base self) tx token t0.
Proof.
  intros Htype. unfold AccountClient_add_transaction.
  by destruct (decide (tx_type tx = DEPLOY)).
Qed.

Lemma add_transaction_presigned_run self tx token t0 :
  tx_type tx ≠ DEPLOY →
  signature tx ≠ [] →
  AccountClient_add_transaction self tx token t0 =
  (Raise (TypeError
            "Adding signatures to a signer tx currently isn't supported"),
   t0).
Proof.
  intros Htype Hsig. unfold AccountClient_add_transaction.
  destruct (decide (tx_type tx = DEPLOY)) as [|_]; [done|].
  by rewrite bool_decide_eq_false_2.
Qed.

End AccountFacts.

Section AccountClaims.
Context `{Environment}.

(** C1.  A regular invoke intent (not a deploy, empty signature) for
    contract [C], selector [S] and calldata [cd], with fetched nonce [n] and
    signature [(r, s)] obtained by signing the message hash, is submitted
    as a transaction addressed to the account itself, with the selector of
    "execute", calldata [[C, S, len(cd), *cd, n]] and signature [[r, s]].
    The library must have accepted the values on the way: the fields of the
    nonce query and of the wrapped transaction, and the elements of the
    hash. *)
Theorem add_transaction_wraps_invoke
    (self : AccountClient) (tx : Transaction) (token : option string)
    (t0 : Trace) (nonce : Z) (rest : list Z) (msg_hash r s : Z) :
  tx_type tx ≠ DEPLOY →
  signature tx = [] →
  InvokeFunction_validate (address self)
    (get_selector_from_name "get_nonce") [] [] = Ok () →
  (Client_call_contract (base self)
     (InvokeFunction_object (address self)
        (get_selector_from_name "get_nonce") [] [])
     None None t0).1 = Ok (nonce :: rest) →
  hash_message (address self) (contract_address tx)
    (entry_point_selector tx) (calldata tx) nonce = Ok msg_hash →
  sign msg_hash (AccountClient_private_key self) = Ok (r, s) →
  InvokeFunction_validate (address self)
    (get_selector_from_name "execute")
    (contract_address tx :: entry_point_selector tx
       :: Z.of_nat (length (calldata tx)) :: calldata tx ++ [nonce])
    [r; s] = Ok () →
  AccountClient_add_transaction self tx token t0 =
  let submitted :=
    {| tx_type := INVOKE_FUNCTION;
       contract_address := address self;
       entry_point_selector := get_selector_from_name "execute";
       calldata :=
         contract_address tx :: entry_point_selector tx
           :: Z.of_nat (length (calldata tx)) :: calldata tx ++ [nonce];
       signature := [r; s] |} in
  let before :=
    t0 ++ [FeederCallContract
             (InvokeFunction_object (address self)
                (get_selector_from_name "get_nonce") [] [])
             None None;
           Sign msg_hash (AccountClient_private_key self)] in
  (gw_add_transaction (_gateway (base self)) before submitted None,
   before ++ [GatewayAddTransaction submitted None]).
Proof.
  intros Htype Hsig Hquery Hnonce Hhash Hsign Hwrapped.
  rewrite add_transaction_invoke_run by done. simpl.
  rewrite Hquery, Hnonce, Hhash, Hsign, Hwrapped.
  unfold InvokeFunction_object. simpl.
  by rewrite <- !app_assoc.
Qed.

(** C2.  A non-deploy intent that already carries a signature is refused
    with a [TypeError] and the trace is untouched: no nonce query, no
    signing, no submission. *)
Theorem presigned_invoke_rejected
    (self : AccountClient) (tx : Transaction) (token : option string)
    (t0 : Trace) :
  tx_type tx ≠ DEPLOY →
  signature tx ≠ [] →
  AccountClient_add_transaction self tx token t0 =
  (Raise (TypeError
            "Adding signatures to a signer tx currently isn't supported"),
   t0).
Proof.
  intros Htype Hsig. by apply add_transaction_presigned_run.
Qed.

(** C10.  A deploy intent goes straight to the base [add_transaction],
    unchanged and with the caller's token, whatever its signature field
    holds: the deploy test comes before the signature test. *)
Theorem deploy_forwarded_unmodified
    (self : AccountClient) (tx : Transaction) (token : option string)
    (t0 : Trace) :
  tx_type tx = DEPLOY →
  AccountClient_add_transaction self tx token t0 =
    Client_add_transaction (base self) tx token t0
  ∧ AccountClient_add_transaction self tx token t0 =
    (gw_add_transaction (_gateway (base self)) t0 tx token,
     t0 ++ [GatewayAddTransaction tx token]).
Proof.
  intros Htype. split; [|rewrite <- Client_add_transaction_run];
    by apply add_transaction_deploy_run.
Qed.

(** C8.  On the invoke path, once the library has built the query object,
    the first call made is the read-only contract call to the account's own
    address, selector of "get_nonce", empty calldata and signature; the
    nonce used afterwards, in the hash that is signed and in the calldata
    that is submitted, is the first element of the list that call
    returned. *)
Theorem nonce_read_from_account
    (self : AccountClient) (tx : Transaction) (token : option string)
    (t0 : Trace) :
  tx_type tx ≠ DEPLOY →
  signature tx = [] →
  InvokeFunction_validate (address self)
    (get_selector_from_name "get_nonce") [] [] = Ok () →
  ∃ later : Trace,
    (AccountClient_add_transaction self tx token t0).2 =
      t0 ++ FeederCallContract
              {| tx_type := INVOKE_FUNCTION;
                 contract_address := address self;
                 entry_point_selector := get_selector_from_name "get_nonce";
                 calldata := [];
                 signature := [] |}
              None None :: later
    ∧ ∀ result : list Z,
        (Client_call_contract (base self)
           (InvokeFunction_object (address self)
              (get_selector_from_name "get_nonce") [] [])
           None None t0).1 = Ok result →
        match result with
        | [] =>
            (AccountClient_add_transaction self tx token t0).1
              = Raise IndexError
            ∧ later = []
        | nonce :: _ =>
            match hash_message (address self) (contract_address tx)
                    (entry_point_selector tx) (calldata tx) nonce with
            | Raise e =>
                (AccountClient_add_transaction self tx token t0).1 = Raise e
                ∧ later = []
            | Ok msg_hash =>
                ∃ after_signing : Trace,
                  later =
                    Sign msg_hash (AccountClient_private_key self)
                      :: after_signing
                  ∧ ∀ submitted tok,
                      GatewayAddTransaction submitted tok ∈ after_signing →
                      calldata submitted =
                        contract_address tx :: entry_point_selector tx
                          :: Z.of_nat (length (calldata tx))
                          :: calldata tx ++ [nonce]
            end
        end.
Proof.
  intros Htype Hsig Hquery.
  rewrite add_transaction_invoke_run by done. simpl. rewrite Hquery.
  clear Hquery.
  destruct (Client_call_contract _ _ _ _ _).1 as [[|nonce rest]|e].
  - exists []. split; [done|]. intros result [= <-]. done.
  - destruct (hash_message _ _ _ _ _) as [msg_hash|e] eqn:Hhash.
    + destruct (sign _ _) as [[r s]|e].
      * destruct (InvokeFunction_validate _ _ _ _) as [[]|e].
        -- eexists. rewrite <- !app_assoc. split; [reflexivity|].
           intros result [= <-]. rewrite Hhash.
           eexists. split; [reflexivity|].
           intros submitted tok Hin. apply list_elem_of_singleton in Hin.
           by injection Hin as -> ->.
        -- eexists. rewrite <- !app_assoc. split; [reflexivity|].
           intros result [= <-]. rewrite Hhash.
           eexists. split; [reflexivity|].
           intros submitted tok Hin. by apply elem_of_nil in Hin.
      * eexists. rewrite <- !app_assoc. split; [reflexivity|].
        intros result [= <-]. rewrite Hhash.
        eexists. split; [reflexivity|].
        intros submitted tok Hin. by apply elem_of_nil in Hin.
    + exists []. split; [done|]. intros result [= <-]. by rewrite Hhash.
  - exists []. split; [done|]. intros result [=].
Qed.

(** C4, as the code has it.  The account client does not look at the key
    itself, be it zero or otherwise invalid: the key is only handed to the
    signer, after the nonce has been fetched and the message hashed.  When
    the signer refuses the key, its exception reaches the caller with the
    nonce query and the signing attempt in the trace and nothing
    submitted.  When the signer returns a signature, for the zero key as
    for any other, the submission goes ahead. *)
Theorem key_checked_by_signer_after_nonce_fetch
    (self : AccountClient) (tx : Transaction) (token : option string)
    (t0 : Trace) (nonce : Z) (rest : list Z) (msg_hash : Z) :
  tx_type tx ≠ DEPLOY →
  signature tx = [] →
  InvokeFunction_validate (address self)
    (get_selector_from_name "get_nonce") [] [] = Ok () →
  (Client_call_contract (base self)
     (InvokeFunction_object (address self)
        (get_selector_from_name "get_nonce") [] [])
     None None t0).1 = Ok (nonce :: rest) →
  hash_message (address self) (contract_address tx)
    (entry_point_selector tx) (calldata tx) nonce = Ok msg_hash →
  (∀ e,
     sign msg_hash (AccountClient_private_key self) = Raise e →
     AccountClient_add_transaction self tx token t0 =
     (Raise e,
      t0 ++ [FeederCallContract
               (InvokeFunction_object (address self)
                  (get_selector_from_name "get_nonce") [] [])
               None None;
             Sign msg_hash (AccountClient_private_key self)]))
  ∧ (∀ r s,
       sign msg_hash (AccountClient_private_key self) = Ok (r, s) →
       InvokeFunction_validate (address self)
         (get_selector_from_name "execute")
         (contract_address tx :: entry_point_selector tx
            :: Z.of_nat (length (calldata tx)) :: calldata tx ++ [nonce])
         [r; s] = Ok () →
       ∃ submitted,
         signature submitted = [r; s]
         ∧ (AccountClient_add_transaction self tx token t0).2 =
           t0 ++ [FeederCallContract
                    (InvokeFunction_object (address self)
                       (get_selector_from_name "get_nonce") [] [])
                    None None;
                  Sign msg_hash (AccountClient_private_key self);
                  GatewayAddTransaction submitted None]).
Proof.
  intros Htype Hsig Hquery Hnonce Hhash.
  rewrite add_transaction_invoke_run by done. simpl.
  rewrite Hquery, Hnonce, Hhash.
  split.
  - intros e ->. by rewrite <- !app_assoc.
  - intros r s -> ->. eexists. split; [|by rewrite <- !app_assoc]. done.
Qed.

(** C3.  [hash_message] is the outer hash of the five elements
    [account, to, selector, d, nonce], [d] being the hash of the calldata
    alone, so the outer sequence has five elements for calldata of any
    length; this is the two-level scheme the specification describes.  A
    refusal of the inner hash is the refusal of [hash_message]. *)
Theorem hash_message_two_level
    (account to selector : Z) (calldata : list Z) (nonce : Z) :
  hash_message account to selector calldata nonce =
    match compute_hash_on_elements calldata with
    | Ok d => compute_hash_on_elements [account; to; selector; d; nonce]
    | Raise e => Raise e
    end
  ∧ (∀ d, length [account; to; selector; d; nonce] = 5%nat)
  ∧ hash_message account to selector calldata nonce =
    hash_message_spec compute_hash_on_elements
      account to selector calldata nonce.
Proof. done. Qed.

End AccountClaims.

(** ** The finality poller *)

Section PollerFacts.
Context `{Environment}.

Lemma TxStatus_getitem_trace name t : (TxStatus_getitem name t).2 = t.
Proof.
  unfold TxStatus_getitem. destruct name; try done.
  repeat (case_decide; [done|]). by destruct (TxStatus_other_member _).
Qed.

Lemma wait_for_tx_verdict_trace tx_hash wfa fr result status t :
  (wait_for_tx_verdict tx_hash wfa fr result status t).2 = t.
Proof.
  unfold wait_for_tx_verdict.
  destruct status; try done.
  - by destruct fr.
  - destruct (negb wfa && _); [|done].
    rewrite run_bind, dict_getitem_run. by destruct (result !! _).
  - rewrite run_bind, dict_getitem_run. by destruct (result !! _).
Qed.

Lemma verdict_of_response_trace tx_hash wfa fr result t :
  (verdict_of_response tx_hash wfa fr result t).2 = t.
Proof.
  unfold verdict_of_response. rewrite run_bind, dict_getitem_run.
  destruct (result !! "status") as [name|]; [|done].
  rewrite run_bind.
  pose proof (TxStatus_getitem_trace name t) as Hname.
  destruct (TxStatus_getitem name t) as [[status|e] t']; simpl in Hname;
    subst t'; [|done].
  apply wait_for_tx_verdict_trace.
Qed.

Lemma verdict_of_response_status tx_hash wfa fr result name status t :
  result !! "status" = Some name →
  TxStatus_getitem name t = (Ok status, t) →
  verdict_of_response tx_hash wfa fr result t =
  wait_for_tx_verdict tx_hash wfa fr result status t.
Proof.
  intros Hname Hstatus. unfold verdict_of_response.
  by rewrite run_bind, dict_getitem_run, Hname, run_bind, Hstatus.
Qed.

(** One pass of the loop, in terms of the feeder's answer. *)
Lemma wait_for_tx_iteration_run self tx_hash wfa ci fr t :
  wait_for_tx_iteration self tx_hash wfa ci fr t =
  let t1 := t ++ [FeederGetTransaction tx_hash None] in
  match fg_get_transaction (_feeder_gateway self) t tx_hash None with
  | Raise e => (Raise e, t1)
  | Ok result =>
      match (verdict_of_response tx_hash wfa fr result t1).1 with
      | Ok (Some v) => (Ok (Some v), t1)
      | Ok None => (Ok None, t1 ++ [Sleep ci])
      | Raise e => (Raise e, t1)
      end
  end.
Proof.
  unfold wait_for_tx_iteration.
  rewrite run_bind, Client_get_transaction_run. simpl.
  destruct (fg_get_transaction _ _ _ _) as [result|e]; [|done].
  unfold verdict_of_response.
  rewrite !run_bind, !dict_getitem_run.
  destruct (result !! "status") as [name|]; simpl; [|done].
  rewrite !run_bind.
  pose proof (TxStatus_getitem_trace name
                (t ++ [FeederGetTransaction tx_hash None])) as Hname.
  destruct (TxStatus_getitem name _) as [[status|e] t2];
    simpl in *; subst t2; [|done].
  rewrite run_bind.
  pose proof (wait_for_tx_verdict_trace tx_hash wfa fr result status
                (t ++ [FeederGetTransaction tx_hash None])) as Hverdict.
  destruct (wait_for_tx_verdict _ _ _ _ _ _) as [[[v|]|e] t3];
    simpl in *; by subst t3.
Qed.

Lemma wait_for_tx_iteration_continues self tx_hash wfa ci fr t :
  (wait_for_tx_iteration self tx_hash wfa ci fr t).1 = Ok None →
  (wait_for_tx_iteration self tx_hash wfa ci fr t).2 =
  t ++ [FeederGetTransaction tx_hash None; Sleep ci].
Proof.
  rewrite wait_for_tx_iteration_run. simpl.
  destruct (fg_get_transaction _ _ _ _) as [result|e]; [|done].
  destruct (verdict_of_response _ _ _ _ _).1 as [[v|]|e]; try done.
  intros _. simpl. by rewrite <- app_assoc.
Qed.

Lemma wait_for_tx_loop_unfold fuel self tx_hash wfa ci fr t :
  wait_for_tx_loop (S fuel) self tx_hash wfa ci fr t =
  match wait_for_tx_iteration self tx_hash wfa ci fr t with
  | (Ok (Some (block_number, status)), t') =>
      (Ok (Returned block_number status), t')
  | (Ok None, t') => wait_for_tx_loop fuel self tx_hash wfa ci false t'
  | (Raise e, t') => (Raise e, t')
  end.
Proof.
  simpl. rewrite run_bind.
  by destruct (wait_for_tx_iteration _ _ _ _ _ _) as [[[[bn st]|]|e] t'].
Qed.

Lemma poll_trace_S t0 tx_hash ci k :
  poll_trace t0 tx_hash ci (S k) =
  poll_trace (t0 ++ [FeederGetTransaction tx_hash None; Sleep ci])
    tx_hash ci k.
Proof. unfold poll_trace. simpl. by rewrite <- app_assoc. Qed.

Lemma poll_trace_0 t0 tx_hash ci : poll_trace t0 tx_hash ci 0 = t0.
Proof. unfold poll_trace. simpl. by rewrite app_nil_r. Qed.

(** [k] polls that all fall through bring the loop to poll [k]. *)
Lemma wait_for_tx_loop_skip self tx_hash wfa ci k :
  ∀ fuel fr t0,
    (∀ i, (i < k)%nat →
       (wait_for_tx_iteration self tx_hash wfa ci (first_run_at fr i)
          (poll_trace t0 tx_hash ci i)).1 = Ok None) →
    wait_for_tx_loop (k + fuel) self tx_hash wfa ci fr t0 =
    wait_for_tx_loop fuel self tx_hash wfa ci (first_run_at fr k)
      (poll_trace t0 tx_hash ci k).
Proof.
  induction k as [|k IH]; intros fuel fr t0 Hearlier.
  - by rewrite poll_trace_0.
  - replace (S k + fuel)%nat with (S (k + fuel)) by lia.
    rewrite wait_for_tx_loop_unfold.
    pose proof (Hearlier 0%nat ltac:(lia)) as Hfirst.
    rewrite poll_trace_0 in Hfirst. simpl in Hfirst.
    pose proof (wait_for_tx_iteration_continues _ _ _ _ _ _ Hfirst) as Htr.
    destruct (wait_for_tx_iteration self tx_hash wfa ci fr t0)
      as [outcome t1]; simpl in *; subst.
    rewrite poll_trace_S.
    rewrite (IH fuel false); [by destruct k|].
    intros i Hi. specialize (Hearlier (S i) ltac:(lia)).
    rewrite poll_trace_S in Hearlier. by destruct i.
Qed.

(** The loop only ever adds to the trace. *)
Lemma wait_for_tx_loop_extends self tx_hash wfa ci fuel :
  ∀ fr t, ∃ more,
    (wait_for_tx_loop fuel self tx_hash wfa ci fr t).2 = t ++ more.
Proof.
  induction fuel as [|fuel IH]; intros fr t.
  - exists []. simpl. by rewrite app_nil_r.
  - rewrite wait_for_tx_loop_unfold, wait_for_tx_iteration_run. simpl.
    destruct (fg_get_transaction _ _ _ _) as [result|e]; [|by eexists].
    destruct (verdict_of_response _ _ _ _ _).1 as [[[bn st]|]|e];
      [by eexists| |by eexists].
    destruct (IH false ((t ++ [FeederGetTransaction tx_hash None])
                          ++ [Sleep ci])) as [more ->].
    eexists. by rewrite <- !app_assoc.
Qed.

(** Once the poller has slept, its run cannot end right after the
    request that preceded the sleep. *)
Lemma wait_for_tx_loop_after_sleep self tx_hash wfa ci fuel fr t outcome :
  wait_for_tx_loop fuel self tx_hash wfa ci fr
    (t ++ [FeederGetTransaction tx_hash None; Sleep ci])
  ≠ (outcome, t ++ [FeederGetTransaction tx_hash None]).
Proof.
  intros Hrun.
  destruct (wait_for_tx_loop_extends self tx_hash wfa ci fuel fr
              (t ++ [FeederGetTransaction tx_hash None; Sleep ci]))
    as [more Hmore].
  rewrite Hrun in Hmore. simpl in Hmore. rewrite <- app_assoc in Hmore.
  by apply app_inv_head in Hmore.
Qed.

(** One poll of the loop, by the status the feeder reports. *)
Lemma wait_for_tx_loop_poll fuel self tx_hash wfa ci fr t result :
  fg_get_transaction (_feeder_gateway self) t tx_hash None = Ok result →
  wait_for_tx_loop (S fuel) self tx_hash wfa ci fr t =
  let t1 := t ++ [FeederGetTransaction tx_hash None] in
  match (verdict_of_response tx_hash wfa fr result t1).1 with
  | Ok (Some (block_number, status)) =>
      (Ok (Returned block_number status), t1)
  | Ok None =>
      wait_for_tx_loop fuel self tx_hash wfa ci false
        (t ++ [FeederGetTransaction tx_hash None; Sleep ci])
  | Raise e => (Raise e, t1)
  end.
Proof.
  intros Hanswer.
  rewrite wait_for_tx_loop_unfold, wait_for_tx_iteration_run, Hanswer.
  simpl.
  destruct (verdict_of_response _ _ _ _ _).1 as [[[bn st]|]|e]; try done.
  by rewrite <- app_assoc.
Qed.

Lemma verdict_not_received tx_hash wfa fr result t :
  result !! "status" = Some (JStr "NOT_RECEIVED") →
  verdict_of_response tx_hash wfa fr result t =
  if fr then (Ok None, t) else (Raise (TxNotReceived tx_hash), t).
Proof.
  intros Hstatus.
  rewrite (verdict_of_response_status _ _ _ _ _ NOT_RECEIVED _ Hstatus)
    by done.
  by destruct fr.
Qed.

Lemma verdict_pending tx_hash wfa fr result t :
  result !! "status" = Some (JStr "PENDING") →
  verdict_of_response tx_hash wfa fr result t =
  match wfa, result !! "block_number" with
  | false, Some block_number => (Ok (Some (block_number, PENDING)), t)
  | _, _ => (Ok None, t)
  end.
Proof.
  intros Hstatus.
  rewrite (verdict_of_response_status _ _ _ _ _ PENDING _ Hstatus) by done.
  unfold wait_for_tx_verdict.
  destruct wfa; simpl; [by destruct (result !! "block_number")|].
  destruct (result !! "block_number") as [bn|] eqn:Hbn.
  - rewrite bool_decide_eq_true_2 by done.
    by rewrite run_bind, dict_getitem_run, Hbn.
  - rewrite bool_decide_eq_false_2; [done|]. by intros [? ?].
Qed.

Lemma verdict_accepted tx_hash wfa fr result t :
  result !! "status" = Some (JStr "ACCEPTED_ONCHAIN") →
  verdict_of_response tx_hash wfa fr result t =
  match result !! "block_number" with
  | Some block_number => (Ok (Some (block_number, ACCEPTED_ONCHAIN)), t)
  | None => (Raise (KeyError (JStr "block_number")), t)
  end.
Proof.
  intros Hstatus.
  rewrite (verdict_of_response_status _ _ _ _ _ ACCEPTED_ONCHAIN _ Hstatus)
    by done.
  unfold wait_for_tx_verdict. rewrite run_bind, dict_getitem_run.
  by destruct (result !! "block_number").
Qed.

End PollerFacts.

Section PollerClaims.
Context `{Environment}.

(** C7.  A check interval of zero or less is refused with a [ValueError]
    before anything is asked of the network, whatever the other
    arguments. *)
Theorem wait_for_tx_rejects_nonpositive_interval
    (fuel : nat) (self : Client) (tx_hash : option CastableToHash)
    (wait_for_accept : bool) (check_interval : Z) (t0 : Trace) :
  check_interval ≤ 0 →
  Client_wait_for_tx fuel self tx_hash wait_for_accept check_interval t0 =
  (Raise (ValueError "check_interval has to bigger than 0."), t0).
Proof.
  intros Hinterval. unfold Client_wait_for_tx.
  by rewrite bool_decide_eq_true_2.
Qed.

(** C5.  Let poll [k] (counted from 0) be the first poll that does not fall
    through to the sleep, and let it observe NOT_RECEIVED.  On the first
    poll ([k = 0]) this is tolerated: the poller sleeps and goes on with
    [first_run] cleared.  On every later poll it raises "was not received",
    right after that poll's request. *)
Theorem not_received_tolerated_on_first_poll_only
    (fuel k : nat) (self : Client) (tx_hash : option CastableToHash)
    (wait_for_accept : bool) (check_interval : Z) (t0 : Trace)
    (result : JsonObject) :
  0 < check_interval →
  (∀ i, (i < k)%nat →
     (wait_for_tx_iteration self tx_hash wait_for_accept check_interval
        (first_run_at true i)
        (poll_trace t0 tx_hash check_interval i)).1 = Ok None) →
  fg_get_transaction (_feeder_gateway self)
    (poll_trace t0 tx_hash check_interval k) tx_hash None = Ok result →
  result !! "status" = Some (JStr "NOT_RECEIVED") →
  Client_wait_for_tx (k + S fuel) self tx_hash wait_for_accept
    check_interval t0 =
  match k with
  | O =>
      wait_for_tx_loop fuel self tx_hash wait_for_accept check_interval
        false (t0 ++ [FeederGetTransaction tx_hash None;
                      Sleep check_interval])
  | S _ =>
      (Raise (TxNotReceived tx_hash),
       poll_trace t0 tx_hash check_interval k
         ++ [FeederGetTransaction tx_hash None])
  end.
Proof.
  intros Hinterval Hearlier Hanswer Hstatus. unfold Client_wait_for_tx.
  rewrite bool_decide_eq_false_2 by lia.
  rewrite wait_for_tx_loop_skip by done.
  rewrite (wait_for_tx_loop_poll _ _ _ _ _ _ _ _ Hanswer). simpl.
  rewrite verdict_not_received by done.
  destruct k as [|k]; simpl; [|done].
  by rewrite poll_trace_0.
Qed.

(** C6, as the code has it.  At any poll whose response reports PENDING,
    the poller returns at once, with the block number and PENDING, exactly
    when [wait_for_accept] is false and the response has a block number;
    in every other PENDING case it sleeps and polls again.  A response
    that reports ACCEPTED_ONCHAIN and has a block number makes the poller
    return at once, with that block number and the status, whatever
    [wait_for_accept] is. *)
Theorem pending_and_accepted_polls
    (fuel : nat) (self : Client) (tx_hash : option CastableToHash)
    (wait_for_accept first_run : bool) (check_interval : Z) (t : Trace)
    (result : JsonObject) :
  fg_get_transaction (_feeder_gateway self) t tx_hash None = Ok result →
  (result !! "status" = Some (JStr "PENDING") →
     ((∃ block_number,
         wait_for_tx_loop (S fuel) self tx_hash wait_for_accept
           check_interval first_run t =
         (Ok (Returned block_number PENDING),
          t ++ [FeederGetTransaction tx_hash None]))
      ↔ wait_for_accept = false ∧ is_Some (result !! "block_number"))
     ∧ (∀ block_number,
          wait_for_accept = false →
          result !! "block_number" = Some block_number →
          wait_for_tx_loop (S fuel) self tx_hash wait_for_accept
            check_interval first_run t =
          (Ok (Returned block_number PENDING),
           t ++ [FeederGetTransaction tx_hash None]))
     ∧ (¬ (wait_for_accept = false ∧ is_Some (result !! "block_number")) →
          wait_for_tx_loop (S fuel) self tx_hash wait_for_accept
            check_interval first_run t =
          wait_for_tx_loop fuel self tx_hash wait_for_accept
            check_interval false
            (t ++ [FeederGetTransaction tx_hash None;
                   Sleep check_interval])))
  ∧ (result !! "status" = Some (JStr "ACCEPTED_ONCHAIN") →
       ∀ block_number,
         result !! "block_number" = Some block_number →
         wait_for_tx_loop (S fuel) self tx_hash wait_for_accept
           check_interval first_run t =
         (Ok (Returned block_number ACCEPTED_ONCHAIN),
          t ++ [FeederGetTransaction tx_hash None])).
Proof.
  intros Hanswer.
  rewrite (wait_for_tx_loop_poll _ _ _ _ _ _ _ _ Hanswer). simpl.
  split.
  - intros Hstatus. rewrite verdict_pending by done.
    destruct wait_for_accept; simpl.
    { split; [split|split].
      - intros [bn Hrun]. by apply wait_for_tx_loop_after_sleep in Hrun.
      - by intros [? _].
      - by intros bn ?.
      - done. }
    destruct (result !! "block_number") as [bn|] eqn:Hbn.
    { split; [split|split].
      - by eauto.
      - by eauto.
      - by intros ? _ [= <-].
      - intros Hno. exfalso. apply Hno. by eauto. }
    split; [split|split].
    + intros [bn Hrun]. by apply wait_for_tx_loop_after_sleep in Hrun.
    + by intros [_ [? ?]].
    + by intros bn _ ?.
    + done.
  - intros Hstatus block_number Hblock.
    by rewrite verdict_accepted, Hblock.
Qed.

End PollerClaims.

(** * The properties on the concrete world *)

(** C1 on the end-to-end fixture: nonce 7, calldata [1, 2, 3]. *)
Lemma add_transaction_wraps_invoke_witness :
  tx_type Demo.invoke_tx ≠ DEPLOY
  ∧ signature Demo.invoke_tx = []
  ∧ AccountClient_add_transaction (H := Demo.env)
      (Demo.account 5 ["0x7"]) Demo.invoke_tx None [] =
    (Ok {[ "code" := 0; "transaction_hash" := 291 ]},
     [FeederCallContract (InvokeFunction_object 1000 9 [] []) None None;
      Sign 28733452396 5;
      GatewayAddTransaction
        {| tx_type := INVOKE_FUNCTION;
           contract_address := 1000;
           entry_point_selector := 7;
           calldata := [77; 88; 3; 1; 2; 3; 7];
           signature := [28733452401; 28733452391] |}
        None]).
Proof.
  split; [discriminate|]. split; [reflexivity|].
  rewrite (@add_transaction_wraps_invoke Demo.env (Demo.account 5 ["0x7"])
             Demo.invoke_tx None [] 7 [] 28733452396 28733452401
             28733452391).
  - reflexivity.
  - discriminate.
  - reflexivity.
  - vm_compute. reflexivity.
  - vm_compute. reflexivity.
  - vm_compute. reflexivity.
  - vm_compute. reflexivity.
  - vm_compute. reflexivity.
Defined.

Lemma presigned_invoke_rejected_witness :
  tx_type Demo.presigned_tx ≠ DEPLOY
  ∧ signature Demo.presigned_tx ≠ []
  ∧ AccountClient_add_transaction (H := Demo.env)
      (Demo.account 5 ["0x7"]) Demo.presigned_tx (Some "token") [] =
    (Raise (TypeError
              "Adding signatures to a signer tx currently isn't supported"),
     []).
Proof.
  split; [discriminate|]. split; [discriminate|].
  apply (@presigned_invoke_rejected Demo.env); discriminate.
Defined.

Lemma deploy_forwarded_unmodified_witness :
  tx_type Demo.signed_deploy_tx = DEPLOY
  ∧ signature Demo.signed_deploy_tx ≠ []
  ∧ AccountClient_add_transaction (H := Demo.env)
      (Demo.account 5 ["0x7"]) Demo.signed_deploy_tx (Some "token") [] =
    (Ok {[ "code" := 0; "transaction_hash" := 291 ]},
     [GatewayAddTransaction Demo.signed_deploy_tx (Some "token")]).
Proof.
  split; [reflexivity|]. split; [discriminate|].
  apply (@deploy_forwarded_unmodified Demo.env (Demo.account 5 ["0x7"])
           Demo.signed_deploy_tx (Some "token") []).
  reflexivity.
Defined.

Lemma nonce_read_from_account_witness :
  ∃ later : Trace,
    (AccountClient_add_transaction (H := Demo.env)
       (Demo.account 5 ["0x7"; "0x8"]) Demo.invoke_tx None []).2 =
      FeederCallContract (InvokeFunction_object 1000 9 [] []) None None
        :: later
    ∧ head later = Some (Sign 28733452396 5).
Proof.
  destruct (@nonce_read_from_account Demo.env
              (Demo.account 5 ["0x7"; "0x8"]) Demo.invoke_tx None [])
    as (later & Htrace & Hnonce).
  - discriminate.
  - reflexivity.
  - vm_compute. reflexivity.
  - exists later. split; [exact Htrace|].
    assert ((Client_call_contract (H := Demo.env)
               (base (Demo.account 5 ["0x7"; "0x8"]))
               (InvokeFunction_object 1000 9 [] []) None None []).1
            = Ok [7; 8]) as Hresult by (vm_compute; reflexivity).
    apply Hnonce in Hresult. vm_compute in Hresult.
    destruct Hresult as (after_signing & -> & _). reflexivity.
Defined.

(** C4 as stated fails, with a signer that treats keys as the library's
    does.  A negative key is refused, but only by the signer: the exception
    reaches the caller after the feeder gateway has been asked for the
    nonce.  The zero key is not refused at all: the transaction is signed
    and submitted. *)
Lemma invalid_key_not_caught_before_network :
  AccountClient_add_transaction (H := Demo.env)
    (Demo.account (-5) ["0x7"]) Demo.invoke_tx None [] =
  (Raise (ExternalError "negative private key"),
   [FeederCallContract (InvokeFunction_object 1000 9 [] []) None None;
    Sign 28733452396 (-5)])
  ∧ existsb is_network_call
      (AccountClient_add_transaction (H := Demo.env)
         (Demo.account (-5) ["0x7"]) Demo.invoke_tx None []).2 = true
  ∧ AccountClient_private_key (Demo.account 0 ["0x7"]) = 0
  ∧ AccountClient_add_transaction (H := Demo.env)
      (Demo.account 0 ["0x7"]) Demo.invoke_tx None [] =
    (Ok {[ "code" := 0; "transaction_hash" := 291 ]},
     [FeederCallContract (InvokeFunction_object 1000 9 [] []) None None;
      Sign 28733452396 0;
      GatewayAddTransaction
        (InvokeFunction_object 1000 7 [77; 88; 3; 1; 2; 3; 7]
           [28733452396; 28733452396])
        None]).
Proof. repeat split; vm_compute; reflexivity. Qed.

Lemma key_checked_by_signer_after_nonce_fetch_witness :
  AccountClient_add_transaction (H := Demo.env)
    (Demo.account (-5) ["0x7"]) Demo.invoke_tx None [] =
  (Raise (ExternalError "negative private key"),
   [FeederCallContract (InvokeFunction_object 1000 9 [] []) None None;
    Sign 28733452396 (-5)])
  ∧ ∃ submitted,
      signature submitted = [28733452396; 28733452396]
      ∧ (AccountClient_add_transaction (H := Demo.env)
           (Demo.account 0 ["0x7"]) Demo.invoke_tx None []).2 =
        [FeederCallContract (InvokeFunction_object 1000 9 [] []) None None;
         Sign 28733452396 0;
         GatewayAddTransaction submitted None].
Proof.
  split.
  - apply (proj1 (@key_checked_by_signer_after_nonce_fetch Demo.env
                    (Demo.account (-5) ["0x7"]) Demo.invoke_tx None [] 7 []
                    28733452396 ltac:(discriminate) eq_refl eq_refl
                    eq_refl eq_refl)).
    vm_compute. reflexivity.
  - apply (proj2 (@key_checked_by_signer_after_nonce_fetch Demo.env
                    (Demo.account 0 ["0x7"]) Demo.invoke_tx None [] 7 []
                    28733452396 ltac:(discriminate) eq_refl eq_refl
                    eq_refl eq_refl)).
    + vm_compute. reflexivity.
    + vm_compute. reflexivity.
Defined.

Lemma wait_for_tx_rejects_nonpositive_interval_witness :
  Client_wait_for_tx (H := Demo.env) 10
    (Demo.client [] [Demo.status_in_block "ACCEPTED_ONCHAIN" 12])
    Demo.tx_hash false 0 [] =
    (Raise (ValueError "check_interval has to bigger than 0."), [])
  ∧ Client_wait_for_tx (H := Demo.env) 10
      (Demo.client [] [Demo.status_in_block "ACCEPTED_ONCHAIN" 12])
      Demo.tx_hash true (-1) [] =
    (Raise (ValueError "check_interval has to bigger than 0."), []).
Proof.
  split; apply (@wait_for_tx_rejects_nonpositive_interval Demo.env); lia.
Defined.

(** C5 on the status sequence [NOT_RECEIVED, NOT_RECEIVED]: the second poll
    fails. *)
Lemma not_received_tolerated_on_first_poll_only_witness :
  Client_wait_for_tx (H := Demo.env) 2
    (Demo.client [] [Demo.status_only "NOT_RECEIVED";
                     Demo.status_only "NOT_RECEIVED"])
    Demo.tx_hash false 5 [] =
  (Raise (TxNotReceived Demo.tx_hash),
   [FeederGetTransaction Demo.tx_hash None; Sleep 5;
    FeederGetTransaction Demo.tx_hash None]).
Proof.
  apply (@not_received_tolerated_on_first_poll_only Demo.env 0 1
           (Demo.client [] [Demo.status_only "NOT_RECEIVED";
                            Demo.status_only "NOT_RECEIVED"])
           Demo.tx_hash false 5 [] (Demo.status_only "NOT_RECEIVED")).
  - lia.
  - intros i Hi. destruct i as [|i]; [vm_compute; reflexivity | lia].
  - vm_compute. reflexivity.
  - vm_compute. reflexivity.
Defined.

(** C6 on the status sequence [NOT_RECEIVED, RECEIVED, PENDING (block 12),
    ACCEPTED_ONCHAIN] without [wait_for_accept]: the third poll returns. *)
Lemma pending_and_accepted_polls_witness :
  wait_for_tx_loop (H := Demo.env) 2
    (Demo.client [] [Demo.status_only "NOT_RECEIVED";
                     Demo.status_only "RECEIVED";
                     Demo.status_in_block "PENDING" 12;
                     Demo.status_in_block "ACCEPTED_ONCHAIN" 12])
    Demo.tx_hash false 5 false
    [FeederGetTransaction Demo.tx_hash None; Sleep 5;
     FeederGetTransaction Demo.tx_hash None; Sleep 5] =
  (Ok (Returned (JInt 12) PENDING),
   [FeederGetTransaction Demo.tx_hash None; Sleep 5;
    FeederGetTransaction Demo.tx_hash None; Sleep 5;
    FeederGetTransaction Demo.tx_hash None]).
Proof.
  destruct (@pending_and_accepted_polls Demo.env 1
              (Demo.client [] [Demo.status_only "NOT_RECEIVED";
                               Demo.status_only "RECEIVED";
                               Demo.status_in_block "PENDING" 12;
                               Demo.status_in_block "ACCEPTED_ONCHAIN" 12])
              Demo.tx_hash false false 5
              [FeederGetTransaction Demo.tx_hash None; Sleep 5;
               FeederGetTransaction Demo.tx_hash None; Sleep 5]
              (Demo.status_in_block "PENDING" 12))
    as [Hpending _].
  - vm_compute. reflexivity.
  - destruct Hpending as (_ & Hreturns & _).
    + vm_compute. reflexivity.
    + apply (Hreturns (JInt 12)).
      * reflexivity.
      * vm_compute. reflexivity.
Defined.

(** C6 as stated fails: a response that reports ACCEPTED_ONCHAIN without a
    block number makes the poller raise instead of returning. *)
Lemma accepted_without_block_number_raises :
  Client_wait_for_tx (H := Demo.env) 3
    (Demo.client [] [Demo.status_only "ACCEPTED_ONCHAIN"])
    Demo.tx_hash false 5 [] =
  (Raise (KeyError (JStr "block_number")),
   [FeederGetTransaction Demo.tx_hash None])
  ∧ Client_wait_for_tx (H := Demo.env) 3
      (Demo.client [] [Demo.status_only "ACCEPTED_ONCHAIN"])
      Demo.tx_hash true 5 [] =
    (Raise (KeyError (JStr "block_number")),
     [FeederGetTransaction Demo.tx_hash None]).
Proof. split; vm_compute; reflexivity. Qed.

(** The scripted run of the specification, from the first poll. *)
Example wait_for_tx_returns_at_pending :
  Client_wait_for_tx (H := Demo.env) 10
    (Demo.client [] [Demo.status_only "NOT_RECEIVED";
                     Demo.status_only "RECEIVED";
                     Demo.status_in_block "PENDING" 12;
                     Demo.status_in_block "ACCEPTED_ONCHAIN" 12])
    Demo.tx_hash false 5 [] =
  (Ok (Returned (JInt 12) PENDING),
   [FeederGetTransaction Demo.tx_hash None; Sleep 5;
    FeederGetTransaction Demo.tx_hash None; Sleep 5;
    FeederGetTransaction Demo.tx_hash None]).
Proof. vm_compute. reflexivity. Qed.

(** With [wait_for_accept] the same run goes on to ACCEPTED_ONCHAIN. *)
Example wait_for_tx_waits_for_accept :
  Client_wait_for_tx (H := Demo.env) 10
    (Demo.client [] [Demo.status_only "NOT_RECEIVED";
                     Demo.status_only "RECEIVED";
                     Demo.status_in_block "PENDING" 12;
                     Demo.status_in_block "ACCEPTED_ONCHAIN" 12])
    Demo.tx_hash true 5 [] =
  (Ok (Returned (JInt 12) ACCEPTED_ONCHAIN),
   [FeederGetTransaction Demo.tx_hash None; Sleep 5;
    FeederGetTransaction Demo.tx_hash None; Sleep 5;
    FeederGetTransaction Demo.tx_hash None; Sleep 5;
    FeederGetTransaction Demo.tx_hash None]).
Proof. vm_compute. reflexivity. Qed.

(** * Further properties of the code *)

(** ** [Client.call_contract] *)

Lemma list_comprehension_ok_iff {A B} (f : A → Result B) (l : list A)
    (t : Trace) (bs : list B) :
  (list_comprehension f l t).1 = Ok bs ↔ Forall2 (λ a b, f a = Ok b) l bs.
Proof.
  revert bs. induction l as [|a l IH]; intros bs; simpl.
  - split.
    + intros [= <-]. constructor.
    + intros Hall. by inversion Hall.
  - destruct (f a) as [b|e] eqn:Hfa.
    + rewrite run_bind.
      destruct (list_comprehension f l t) as [[bs'|e] t'] eqn:Hrest;
        simpl in *.
      * split.
        -- intros [= <-]. constructor; [done|]. by apply IH.
        -- intros Hall. inversion Hall as [|? b' ? bs'' Hb Htail]; subst.
           rewrite Hfa in Hb. injection Hb as <-.
           apply IH in Htail. by injection Htail as <-.
      * split; [done|].
        intros Hall. inversion Hall as [|? b' ? bs'' Hb Htail]; subst.
        by apply IH in Htail.
    + split; [done|].
      intros Hall. inversion Hall as [|? b' ? bs'' Hb Htail]; subst.
      by rewrite Hfa in Hb.
Qed.

Lemma list_comprehension_first_failure {A B} (f : A → Result B)
    (good : list A) (bad : A) (rest : list A) (bs : list B) (e : exn)
    (t : Trace) :
  Forall2 (λ a b, f a = Ok b) good bs →
  f bad = Raise e →
  (list_comprehension f (good ++ bad :: rest) t).1 = Raise e.
Proof.
  intros Hgood Hbad. induction Hgood as [|a b good bs Hab _ IH]; simpl.
  - by rewrite Hbad.
  - rewrite Hab, run_bind.
    by destruct (list_comprehension f _ t) as [[bs'|e'] t']; simpl in *;
      simplify_eq.
Qed.

Section CallContractProperties.
Context `{Environment}.

Lemma Client_call_contract_run self invoke_tx block_hash block_number t :
  Client_call_contract self invoke_tx block_hash block_number t =
  (match fg_call_contract (_feeder_gateway self) t invoke_tx block_hash
           block_number with
   | Raise e => Raise e
   | Ok response =>
       match response !! "result" with
       | None => Raise (KeyError (JStr "result"))
       | Some result =>
           (list_comprehension int_base16 result
              (t ++ [FeederCallContract invoke_tx block_hash block_number])).1
       end
   end,
   t ++ [FeederCallContract invoke_tx block_hash block_number]).
Proof.
  rewrite (surjective_pairing (Client_call_contract _ _ _ _ _)).
  rewrite Client_call_contract_trace. f_equal.
  unfold Client_call_contract. rewrite run_bind, run_perform.
  destruct (fg_call_contract _ _ _ _ _) as [response|e]; [|done].
  rewrite run_bind, dict_getitem_run.
  by destruct (response !! "result").
Qed.

(** X1.  When the feeder gateway answers with a ["result"] list, the call
    returns [values] exactly when [values] are the base-16 readings of the
    entries, one for one and in order; one request has been made. *)
Theorem call_contract_returns_parsed_values
    (self : Client) (invoke_tx : Transaction)
    (block_hash : option CastableToHash) (block_number : option Z)
    (t : Trace) (response : gmap string (list string))
    (result : list string) (values : list Z) :
  fg_call_contract (_feeder_gateway self) t invoke_tx block_hash block_number
    = Ok response →
  response !! "result" = Some result →
  Client_call_contract self invoke_tx block_hash block_number t =
    (Ok values, t ++ [FeederCallContract invoke_tx block_hash block_number])
  ↔ Forall2 (λ entry value, int_base16 entry = Ok value) result values.
Proof.
  intros Hanswer Hresult.
  rewrite Client_call_contract_run, Hanswer, Hresult.
  rewrite <- (list_comprehension_ok_iff int_base16 result
                (t ++ [FeederCallContract invoke_tx block_hash block_number])).
  split; [by intros [= ->]|by intros ->].
Qed.

(** X2.  An entry that cannot be read in base 16 ends the call with the error
    of the first such entry; nothing is returned for the entries before
    it. *)
Theorem call_contract_stops_at_first_bad_entry
    (self : Client) (invoke_tx : Transaction)
    (block_hash : option CastableToHash) (block_number : option Z)
    (t : Trace) (response : gmap string (list string))
    (good : list string) (bad : string) (rest : list string)
    (values : list Z) (e : exn) :
  fg_call_contract (_feeder_gateway self) t invoke_tx block_hash block_number
    = Ok response →
  response !! "result" = Some (good ++ bad :: rest) →
  Forall2 (λ entry value, int_base16 entry = Ok value) good values →
  int_base16 bad = Raise e →
  Client_call_contract self invoke_tx block_hash block_number t =
  (Raise e, t ++ [FeederCallContract invoke_tx block_hash block_number]).
Proof.
  intros Hanswer Hresult Hgood Hbad.
  rewrite Client_call_contract_run, Hanswer, Hresult.
  by rewrite (list_comprehension_first_failure _ _ _ _ values e).
Qed.

(** X3.  A failure of the feeder gateway reaches the caller as it is, and an
    answer without the key ["result"] is a [KeyError]; either way exactly
    one request has been made and none is repeated. *)
Theorem call_contract_failures
    (self : Client) (invoke_tx : Transaction)
    (block_hash : option CastableToHash) (block_number : option Z)
    (t : Trace) :
  (∀ e,
     fg_call_contract (_feeder_gateway self) t invoke_tx block_hash
       block_number = Raise e →
     Client_call_contract self invoke_tx block_hash block_number t =
     (Raise e, t ++ [FeederCallContract invoke_tx block_hash block_number]))
  ∧ (∀ response,
       fg_call_contract (_feeder_gateway self) t invoke_tx block_hash
         block_number = Ok response →
       response !! "result" = None →
       Client_call_contract self invoke_tx block_hash block_number t =
       (Raise (KeyError (JStr "result")),
        t ++ [FeederCallContract invoke_tx block_hash block_number])).
Proof.
  split.
  - intros e Hanswer. by rewrite Client_call_contract_run, Hanswer.
  - intros response Hanswer Hresult.
    by rewrite Client_call_contract_run, Hanswer, Hresult.
Qed.

End CallContractProperties.

(** ** [Client.wait_for_tx] *)

Section PollerProperties.
Context `{Environment}.

Lemma TxStatus_getitem_inv name status t t' :
  TxStatus_getitem name t = (Ok status, t') →
  name = JStr (TxStatus_name status)
  ∧ match status with
    | OTHER_STATUS s => TxStatus_other_member s = true
    | _ => True
    end.
Proof.
  unfold TxStatus_getitem.
  destruct name as [| | | |s| |]; try by rewrite run_raise.
  do 5 (case_decide as Heq;
        [subst s; rewrite run_ret; by intros [= <- _]|clear Heq]).
  destruct (TxStatus_other_member s) eqn:Hother; [|by rewrite run_raise].
  rewrite run_ret. by intros [= <- _].
Qed.

Lemma verdict_of_response_returns tx_hash wfa fr result t block_number status :
  (verdict_of_response tx_hash wfa fr result t).1
    = Ok (Some (block_number, status)) →
  result !! "block_number" = Some block_number
  ∧ result !! "status" = Some (JStr (TxStatus_name status))
  ∧ (status = ACCEPTED_ONCHAIN ∨ status = PENDING ∧ wfa = false).
Proof.
  unfold verdict_of_response. rewrite run_bind, dict_getitem_run.
  destruct (result !! "status") as [name|]; [|done].
  rewrite run_bind.
  destruct (TxStatus_getitem name t) as [[st|e] t'] eqn:Hname; [|done].
  apply TxStatus_getitem_inv in Hname as [-> _].
  unfold wait_for_tx_verdict.
  destruct st; simpl; try done.
  - by destruct fr.
  - destruct wfa; simpl; [done|].
    case_bool_decide as Hsome; [|done].
    rewrite run_bind, dict_getitem_run.
    destruct (result !! "block_number") as [bn|]; [|done].
    intros [= <- <-]. eauto.
  - rewrite run_bind, dict_getitem_run.
    destruct (result !! "block_number") as [bn|]; [|done].
    intros [= <- <-]. eauto.
Qed.

Lemma verdict_rejected tx_hash wfa fr result t :
  result !! "status" = Some (JStr "REJECTED") →
  verdict_of_response tx_hash wfa fr result t = (Raise (TxRejected tx_hash), t).
Proof.
  intros Hstatus.
  by rewrite (verdict_of_response_status _ _ _ _ _ REJECTED _ Hstatus).
Qed.

Lemma verdict_received tx_hash wfa fr result t :
  result !! "status" = Some (JStr "RECEIVED") →
  verdict_of_response tx_hash wfa fr result t = (Ok None, t).
Proof.
  intros Hstatus.
  by rewrite (verdict_of_response_status _ _ _ _ _ RECEIVED _ Hstatus).
Qed.

(** X4.  A poll that observes REJECTED raises "was rejected" right after the
    request, on the first poll as on any other and whatever
    [wait_for_accept] is. *)
Theorem rejected_poll_raises
    (fuel : nat) (self : Client) (tx_hash : option CastableToHash)
    (wait_for_accept first_run : bool) (check_interval : Z) (t : Trace)
    (result : JsonObject) :
  fg_get_transaction (_feeder_gateway self) t tx_hash None = Ok result →
  result !! "status" = Some (JStr "REJECTED") →
  wait_for_tx_loop (S fuel) self tx_hash wait_for_accept check_interval
    first_run t =
  (Raise (TxRejected tx_hash), t ++ [FeederGetTransaction tx_hash None]).
Proof.
  intros Hanswer Hstatus.
  rewrite (wait_for_tx_loop_poll _ _ _ _ _ _ _ _ Hanswer). simpl.
  by rewrite verdict_rejected.
Qed.

(** X5.  A poll that observes RECEIVED sleeps for [check_interval] and polls
    again with [first_run] cleared. *)
Theorem received_poll_continues
    (fuel : nat) (self : Client) (tx_hash : option CastableToHash)
    (wait_for_accept first_run : bool) (check_interval : Z) (t : Trace)
    (result : JsonObject) :
  fg_get_transaction (_feeder_gateway self) t tx_hash None = Ok result →
  result !! "status" = Some (JStr "RECEIVED") →
  wait_for_tx_loop (S fuel) self tx_hash wait_for_accept check_interval
    first_run t =
  wait_for_tx_loop fuel self tx_hash wait_for_accept check_interval false
    (t ++ [FeederGetTransaction tx_hash None; Sleep check_interval]).
Proof.
  intros Hanswer Hstatus.
  rewrite (wait_for_tx_loop_poll _ _ _ _ _ _ _ _ Hanswer). simpl.
  by rewrite verdict_received.
Qed.

(** X6.  A response whose status cannot be classified ends the polling at
    once.  The enum's lookup by name is a dictionary lookup: a missing
    ["status"] key, a scalar that is not a string, or a string that names
    no member of [TxStatus] is a [KeyError]; a list or a dict is a
    [TypeError], since neither can be hashed; a string that names a member
    other than the five the loop handles is "Unknown status". *)
Theorem unclassified_status_raises
    (fuel : nat) (self : Client) (tx_hash : option CastableToHash)
    (wait_for_accept first_run : bool) (check_interval : Z) (t : Trace)
    (result : JsonObject) :
  fg_get_transaction (_feeder_gateway self) t tx_hash None = Ok result →
  (wait_for_tx_loop (S fuel) self tx_hash wait_for_accept check_interval
     first_run t).2 = t ++ [FeederGetTransaction tx_hash None]
  ∧ (wait_for_tx_loop (S fuel) self tx_hash wait_for_accept check_interval
       first_run t).1 =
    match result !! "status" with
    | None => Raise (KeyError (JStr "status"))
    | Some (JStr name) =>
        if TxStatus_other_member name
        then Raise (UnknownStatus (OTHER_STATUS name))
        else Raise (KeyError (JStr name))
    | Some (JList items) => Raise (TypeError "unhashable type: 'list'")
    | Some (JObj members) => Raise (TypeError "unhashable type: 'dict'")
    | Some JNull => Raise (KeyError JNull)
    | Some (JBool b) => Raise (KeyError (JBool b))
    | Some (JInt n) => Raise (KeyError (JInt n))
    | Some (JFloat literal) => Raise (KeyError (JFloat literal))
    end
  ∨ ∃ status,
      status ∈ [NOT_RECEIVED; RECEIVED; PENDING; REJECTED; ACCEPTED_ONCHAIN]
      ∧ result !! "status" = Some (JStr (TxStatus_name status)).
Proof.
  intros Hanswer.
  rewrite (wait_for_tx_loop_poll _ _ _ _ _ _ _ _ Hanswer). simpl.
  unfold verdict_of_response. rewrite run_bind, dict_getitem_run.
  destruct (result !! "status") as [[| | | |name| |]|]; simpl;
    try (left; split; reflexivity).
  unfold TxStatus_getitem.
  do 5 (case_decide as Heq;
        [subst name; right;
         first [ by exists NOT_RECEIVED; split; [set_solver|]
               | by exists RECEIVED; split; [set_solver|]
               | by exists PENDING; split; [set_solver|]
               | by exists REJECTED; split; [set_solver|]
               | by exists ACCEPTED_ONCHAIN; split; [set_solver|] ]
        |clear Heq]).
  left. rewrite run_bind.
  by destruct (TxStatus_other_member name).
Qed.

(** X7.  A failure of the feeder gateway during a poll reaches the caller at
    once: the poller neither retries nor sleeps. *)
Theorem poll_failure_propagates
    (fuel : nat) (self : Client) (tx_hash : option CastableToHash)
    (wait_for_accept first_run : bool) (check_interval : Z) (t : Trace)
    (e : exn) :
  fg_get_transaction (_feeder_gateway self) t tx_hash None = Raise e →
  wait_for_tx_loop (S fuel) self tx_hash wait_for_accept check_interval
    first_run t =
  (Raise e, t ++ [FeederGetTransaction tx_hash None]).
Proof.
  intros Hanswer.
  by rewrite wait_for_tx_loop_unfold, wait_for_tx_iteration_run, Hanswer.
Qed.

End PollerProperties.

Section PollerRuns.
Context `{Environment}.

Lemma wait_for_tx_loop_shape self tx_hash wfa ci fuel :
  ∀ fr t,
    wait_for_tx_loop fuel self tx_hash wfa ci fr t =
      (Ok StillPolling, poll_trace t tx_hash ci fuel)
    ∨ ∃ k, (k < fuel)%nat
        ∧ (wait_for_tx_loop fuel self tx_hash wfa ci fr t).2 =
          poll_trace t tx_hash ci k ++ [FeederGetTransaction tx_hash None]
        ∧ (wait_for_tx_loop fuel self tx_hash wfa ci fr t).1
          ≠ Ok StillPolling.
Proof.
  induction fuel as [|fuel IH]; intros fr t.
  - left. by rewrite poll_trace_0.
  - rewrite wait_for_tx_loop_unfold, wait_for_tx_iteration_run. simpl.
    destruct (fg_get_transaction _ _ _ _) as [result|e].
    + destruct (verdict_of_response _ _ _ _ _).1 as [[[bn st]|]|e].
      * right. exists 0%nat. rewrite poll_trace_0.
        split; [lia|]. by split.
      * rewrite <- app_assoc. simpl.
        destruct (IH false
                    (t ++ [FeederGetTransaction tx_hash None; Sleep ci]))
          as [Hstill|(k & Hk & Htrace & Hended)].
        -- left. by rewrite poll_trace_S.
        -- right. exists (S k). rewrite poll_trace_S.
           split; [lia|]. by split.
      * right. exists 0%nat. rewrite poll_trace_0.
        split; [lia|]. by split.
    + right. exists 0%nat. rewrite poll_trace_0. split; [lia|]. by split.
Qed.

Lemma wait_for_tx_loop_returns self tx_hash wfa ci fuel :
  ∀ fr t block_number status t',
    wait_for_tx_loop fuel self tx_hash wfa ci fr t
      = (Ok (Returned block_number status), t') →
    ∃ asked result,
      t' = asked ++ [FeederGetTransaction tx_hash None]
      ∧ fg_get_transaction (_feeder_gateway self) asked tx_hash None
        = Ok result
      ∧ result !! "block_number" = Some block_number
      ∧ result !! "status" = Some (JStr (TxStatus_name status))
      ∧ (status = ACCEPTED_ONCHAIN ∨ status = PENDING ∧ wfa = false).
Proof.
  induction fuel as [|fuel IH]; intros fr t block_number status t'; [done|].
  rewrite wait_for_tx_loop_unfold, wait_for_tx_iteration_run. simpl.
  destruct (fg_get_transaction _ _ _ _) as [result|e] eqn:Hanswer; [|done].
  destruct (verdict_of_response _ _ _ _ _).1 as [[[bn st]|]|e] eqn:Hverdict;
    [| |done].
  - intros [= -> -> <-].
    apply verdict_of_response_returns in Hverdict as (Hbn & Hst & Hwhich).
    by exists t, result.
  - apply IH.
Qed.

(** X8.  The trace of a run with a positive interval: requests for the
    transaction separated by one sleep of [check_interval] each, nothing
    else, and no sleep after the request on which the run ends. *)
Theorem wait_for_tx_trace_shape
    (fuel : nat) (self : Client) (tx_hash : option CastableToHash)
    (wait_for_accept : bool) (check_interval : Z) (t0 : Trace) :
  0 < check_interval →
  Client_wait_for_tx fuel self tx_hash wait_for_accept check_interval t0 =
    (Ok StillPolling, poll_trace t0 tx_hash check_interval fuel)
  ∨ ∃ k, (k < fuel)%nat
      ∧ (Client_wait_for_tx fuel self tx_hash wait_for_accept
           check_interval t0).2 =
        poll_trace t0 tx_hash check_interval k
          ++ [FeederGetTransaction tx_hash None]
      ∧ (Client_wait_for_tx fuel self tx_hash wait_for_accept
           check_interval t0).1 ≠ Ok StillPolling.
Proof.
  intros Hinterval. unfold Client_wait_for_tx.
  rewrite bool_decide_eq_false_2 by lia.
  apply wait_for_tx_loop_shape.
Qed.

(** X9.  What [wait_for_tx] returns is read off the last response it received:
    its block number and its status, which is ACCEPTED_ONCHAIN, or PENDING
    when [wait_for_accept] is false; in particular with [wait_for_accept]
    the poller never returns on PENDING. *)
Theorem wait_for_tx_returns_last_response
    (fuel : nat) (self : Client) (tx_hash : option CastableToHash)
    (wait_for_accept : bool) (check_interval : Z) (t0 t' : Trace)
    (block_number : JsonValue) (status : TxStatus) :
  Client_wait_for_tx fuel self tx_hash wait_for_accept check_interval t0
    = (Ok (Returned block_number status), t') →
  ∃ asked result,
    t' = asked ++ [FeederGetTransaction tx_hash None]
    ∧ fg_get_transaction (_feeder_gateway self) asked tx_hash None = Ok result
    ∧ result !! "block_number" = Some block_number
    ∧ result !! "status" = Some (JStr (TxStatus_name status))
    ∧ (status = ACCEPTED_ONCHAIN
       ∨ status = PENDING ∧ wait_for_accept = false).
Proof.
  unfold Client_wait_for_tx. case_bool_decide; [done|].
  apply wait_for_tx_loop_returns.
Qed.

(** X10.  There is no timeout: as long as the feeder gateway keeps reporting
    RECEIVED, or PENDING while [wait_for_accept] is set, the poller keeps
    polling, however many rounds it is given. *)
Theorem wait_for_tx_polls_forever
    (fuel : nat) (self : Client) (tx_hash : option CastableToHash)
    (wait_for_accept : bool) (check_interval : Z) (t0 : Trace) :
  0 < check_interval →
  (∀ t, ∃ result,
     fg_get_transaction (_feeder_gateway self) t tx_hash None = Ok result
     ∧ (result !! "status" = Some (JStr "RECEIVED")
        ∨ result !! "status" = Some (JStr "PENDING")
          ∧ wait_for_accept = true)) →
  Client_wait_for_tx fuel self tx_hash wait_for_accept check_interval t0 =
  (Ok StillPolling, poll_trace t0 tx_hash check_interval fuel).
Proof.
  intros Hinterval Hstuck. unfold Client_wait_for_tx.
  rewrite bool_decide_eq_false_2 by lia.
  generalize true as fr. revert t0.
  induction fuel as [|fuel IH]; intros t0 fr.
  - by rewrite poll_trace_0.
  - destruct (Hstuck t0) as (result & Hanswer & Hstatus).
    rewrite (wait_for_tx_loop_poll _ _ _ _ _ _ _ _ Hanswer). simpl.
    rewrite poll_trace_S.
    destruct Hstatus as [Hreceived|[Hpending ->]].
    + rewrite verdict_received by done. apply IH.
    + rewrite verdict_pending by done. apply IH.
Qed.

End PollerRuns.

(** ** [AccountClient.add_transaction] *)

Section AccountProperties.
Context `{Environment}.

(** What a run on the invoke path adds to the trace. *)
Lemma add_transaction_invoke_trace self tx token t0 :
  tx_type tx ≠ DEPLOY →
  signature tx = [] →
  ∃ more,
    (AccountClient_add_transaction self tx token t0).2 = t0 ++ more
    ∧ (more = []
       ∨ more = [FeederCallContract
                   (InvokeFunction_object (address self)
                      (get_selector_from_name "get_nonce") [] [])
                   None None]
       ∨ (∃ msg_hash,
            more = [FeederCallContract
                      (InvokeFunction_object (address self)
                         (get_selector_from_name "get_nonce") [] [])
                      None None;
                    Sign msg_hash (AccountClient_private_key self)])
       ∨ (∃ msg_hash nonce r s,
            more = [FeederCallContract
                      (InvokeFunction_object (address self)
                         (get_selector_from_name "get_nonce") [] [])
                      None None;
                    Sign msg_hash (AccountClient_private_key self);
                    GatewayAddTransaction
                      (InvokeFunction_object (address self)
                         (get_selector_from_name "execute")
                         (contract_address tx :: entry_point_selector tx
                            :: Z.of_nat (length (calldata tx))
                            :: calldata tx ++ [nonce])
                         [r; s])
                      None])).
Proof.
  intros Htype Hsig. rewrite add_transaction_invoke_run by done. simpl.
  destruct (InvokeFunction_validate _ _ [] []) as [[]|e];
    [|exists []; rewrite app_nil_r; by auto].
  destruct (Client_call_contract _ _ _ _ _).1 as [[|nonce rest]|e];
    [by eauto|..|by eauto].
  destruct (hash_message _ _ _ _ _) as [msg_hash|e]; [|by eauto].
  destruct (sign _ _) as [[r s]|e]; simpl.
  - destruct (InvokeFunction_validate _ _ _ _) as [[]|e];
      rewrite <- !app_assoc; simpl; eauto 10.
  - rewrite <- !app_assoc. simpl. eauto 10.
Qed.

(** X11.  For an intent that is not a deploy, the caller's [token] plays no
    part: it is not handed to the gateway, which is called without one. *)
Theorem invoke_ignores_token
    (self : AccountClient) (tx : Transaction) (token token' : option string)
    (t0 : Trace) :
  tx_type tx ≠ DEPLOY →
  AccountClient_add_transaction self tx token t0 =
    AccountClient_add_transaction self tx token' t0
  ∧ ∀ submitted tok,
      GatewayAddTransaction submitted tok
        ∈ drop (length t0) (AccountClient_add_transaction self tx token t0).2 →
      tok = None.
Proof.
  intros Htype.
  destruct (decide (signature tx = [])) as [Hsig|Hsig].
  - split; [by rewrite !add_transaction_invoke_run|].
    destruct (add_transaction_invoke_trace self tx token t0 Htype Hsig)
      as (more & -> & Hmore).
    rewrite drop_app_length. intros submitted tok Hin.
    destruct Hmore as [->|[->|[(h & ->)|(h & nonce & r & s & ->)]]].
    all: repeat (apply elem_of_cons in Hin as [Hin|Hin]; [by simplify_eq|]).
    all: by apply elem_of_nil in Hin.
  - rewrite !add_transaction_presigned_run by done. split; [done|]. simpl.
    intros submitted tok. rewrite drop_all. by intros Hin%elem_of_nil.
Qed.

(** X12.  Once the library has built the query object: when the nonce
    cannot be obtained, because the contract call raises or because it
    returns an empty list, the run ends there: nothing is signed and
    nothing is submitted. *)
Theorem nonce_failure_stops_before_signing
    (self : AccountClient) (tx : Transaction) (token : option string)
    (t0 : Trace) :
  tx_type tx ≠ DEPLOY →
  signature tx = [] →
  InvokeFunction_validate (address self)
    (get_selector_from_name "get_nonce") [] [] = Ok () →
  (∀ e,
     (Client_call_contract (base self)
        (InvokeFunction_object (address self)
           (get_selector_from_name "get_nonce") [] [])
        None None t0).1 = Raise e →
     AccountClient_add_transaction self tx token t0 =
     (Raise e,
      t0 ++ [FeederCallContract
               (InvokeFunction_object (address self)
                  (get_selector_from_name "get_nonce") [] [])
               None None]))
  ∧ ((Client_call_contract (base self)
        (InvokeFunction_object (address self)
           (get_selector_from_name "get_nonce") [] [])
        None None t0).1 = Ok [] →
     AccountClient_add_transaction self tx token t0 =
     (Raise IndexError,
      t0 ++ [FeederCallContract
               (InvokeFunction_object (address self)
                  (get_selector_from_name "get_nonce") [] [])
               None None])).
Proof.
  intros Htype Hsig Hquery. rewrite add_transaction_invoke_run by done.
  simpl. rewrite Hquery.
  split; [intros e|]; by intros ->.
Qed.

(** X13.  Whatever the intent and whatever the network answers, one call of
    [add_transaction] reaches the gateway at most once, as its last step.
    What it submits is either the caller's deploy intent as it is, with the
    caller's token, or an invoke of the account's own address without a
    token, with a two-element signature and four more calldata elements
    than the intent has. *)
Theorem add_transaction_submits_at_most_once
    (self : AccountClient) (tx : Transaction) (token : option string)
    (t0 : Trace) :
  ∃ before submissions,
    (AccountClient_add_transaction self tx token t0).2
      = t0 ++ before ++ submissions
    ∧ Forall (λ ev, is_submission ev = false) before
    ∧ (submissions = []
       ∨ ∃ submitted tok,
           submissions = [GatewayAddTransaction submitted tok]
           ∧ (tx_type tx = DEPLOY ∧ submitted = tx ∧ tok = token
              ∨ tx_type tx ≠ DEPLOY
                ∧ signature tx = []
                ∧ tx_type submitted = INVOKE_FUNCTION
                ∧ contract_address submitted = address self
                ∧ tok = None
                ∧ length (signature submitted) = 2%nat
                ∧ length (calldata submitted)
                  = (length (calldata tx) + 4)%nat)).
Proof.
  destruct (decide (tx_type tx = DEPLOY)) as [Hdeploy|Hinvoke].
  - rewrite add_transaction_deploy_run, Client_add_transaction_run by done.
    exists [], [GatewayAddTransaction tx token]. simpl.
    split; [done|]. split; [constructor|]. right. eauto 10.
  - destruct (decide (signature tx = [])) as [Hsig|Hsig].
    + destruct (add_transaction_invoke_trace self tx token t0 Hinvoke Hsig)
        as (more & -> & Hmore).
      destruct Hmore as [->|[->|[(h & ->)|(h & nonce & r & s & ->)]]].
      * exists [], []. split; [done|]. split; [constructor|by left].
      * eexists [_], []. split; [done|].
        split; [by repeat constructor|by left].
      * eexists [_; _], []. split; [done|].
        split; [by repeat constructor|by left].
      * eexists [_; _], [_]. split; [done|].
        split; [by repeat constructor|].
        right. do 2 eexists. split; [done|]. right.
        repeat split; try done.
        simpl. rewrite length_app. simpl. lia.
    + rewrite add_transaction_presigned_run by done.
      exists [], []. simpl. rewrite app_nil_r.
      split; [done|]. split; [constructor|by left].
Qed.

(** X14.  The calldata handed to the gateway determines the intent: two
    invoke submissions with the same calldata come from intents with the
    same target contract, the same selector and the same calldata. *)
Theorem execute_calldata_determines_intent
    (self1 self2 : AccountClient) (tx1 tx2 : Transaction)
    (token1 token2 : option string) (t1 t2 more1 more2 : Trace)
    (submitted1 submitted2 : Transaction) (tok1 tok2 : option string) :
  tx_type tx1 ≠ DEPLOY →
  tx_type tx2 ≠ DEPLOY →
  (AccountClient_add_transaction self1 tx1 token1 t1).2
    = t1 ++ more1 ++ [GatewayAddTransaction submitted1 tok1] →
  (AccountClient_add_transaction self2 tx2 token2 t2).2
    = t2 ++ more2 ++ [GatewayAddTransaction submitted2 tok2] →
  calldata submitted1 = calldata submitted2 →
  contract_address tx1 = contract_address tx2
  ∧ entry_point_selector tx1 = entry_point_selector tx2
  ∧ calldata tx1 = calldata tx2.
Proof.
  assert (Hshape : ∀ (self : AccountClient) tx token t more submitted tok,
    tx_type tx ≠ DEPLOY →
    (AccountClient_add_transaction self tx token t).2
      = t ++ more ++ [GatewayAddTransaction submitted tok] →
    ∃ nonce,
      calldata submitted =
      contract_address tx :: entry_point_selector tx
        :: Z.of_nat (length (calldata tx)) :: calldata tx ++ [nonce]).
  { intros self tx token t more submitted tok Htype Htrace.
    destruct (decide (signature tx = [])) as [Hsig|Hsig].
    - destruct (add_transaction_invoke_trace self tx token t Htype Hsig)
        as (added & Hadded & Hcases).
      rewrite Hadded in Htrace. apply app_inv_head in Htrace. subst added.
      destruct Hcases as [Hc|[Hc|[(h & Hc)|(h & nonce & r & s & Hc)]]].
      + by destruct more.
      + apply (app_inj_tail more []) in Hc as [_ [=]].
      + apply (app_inj_tail more [_]) in Hc as [_ [=]].
      + apply (app_inj_tail more [_; _]) in Hc as [_ [= -> _]].
        by exists nonce.
    - rewrite add_transaction_presigned_run in Htrace by done.
      simpl in Htrace. symmetry in Htrace.
      apply app_eq_self_inv in Htrace. by destruct more. }
  intros Htype1 Htype2 Htrace1 Htrace2 Hsame.
  destruct (Hshape _ _ _ _ _ _ _ Htype1 Htrace1) as [nonce1 Hcd1].
  destruct (Hshape _ _ _ _ _ _ _ Htype2 Htrace2) as [nonce2 Hcd2].
  rewrite Hcd1, Hcd2 in Hsame. injection Hsame as Hto Hsel _ Htail.
  apply app_inj_tail in Htail as [Hcalldata Hnonce].
  done.
Qed.

(** X18.  When the library refuses a value, the run stops at that step.  A
    refused nonce query (an account address the library does not accept)
    raises before any call is made.  A refused hash (a nonce or a field of
    the intent outside the field) raises after the nonce query, with
    nothing signed and nothing submitted. *)
Theorem library_refusal_stops_the_run
    (self : AccountClient) (tx : Transaction) (token : option string)
    (t0 : Trace) :
  tx_type tx ≠ DEPLOY →
  signature tx = [] →
  (∀ e,
     InvokeFunction_validate (address self)
       (get_selector_from_name "get_nonce") [] [] = Raise e →
     AccountClient_add_transaction self tx token t0 = (Raise e, t0))
  ∧ (∀ nonce rest e,
       InvokeFunction_validate (address self)
         (get_selector_from_name "get_nonce") [] [] = Ok () →
       (Client_call_contract (base self)
          (InvokeFunction_object (address self)
             (get_selector_from_name "get_nonce") [] [])
          None None t0).1 = Ok (nonce :: rest) →
       hash_message (address self) (contract_address tx)
         (entry_point_selector tx) (calldata tx) nonce = Raise e →
       AccountClient_add_transaction self tx token t0 =
       (Raise e,
        t0 ++ [FeederCallContract
                 (InvokeFunction_object (address self)
                    (get_selector_from_name "get_nonce") [] [])
                 None None])).
Proof.
  intros Htype Hsig. rewrite add_transaction_invoke_run by done. simpl.
  split.
  - by intros e ->.
  - by intros nonce rest e -> -> ->.
Qed.

End AccountProperties.

(** ** [AccountClient.create_account] *)

Section AccountCreationProperties.
Context `{Environment} `{AccountDeployment}.

Lemma create_account_run net pk t0 :
  AccountClient_create_account net pk t0 =
  match KeyPair_from_private_key
          (if not_pk pk then get_random_private_key t0 else default 0 pk) with
  | Raise e => (Raise e, t0)
  | Ok key_pair =>
      match Client_init net with
      | Raise e => (Raise e, t0)
      | Ok client =>
          match Contract_deploy client [public_key key_pair] t0 with
          | (Raise e, t1) => (Raise e, t1)
          | (Ok account_address, t1) =>
              (AccountClient_init account_address key_pair net, t1)
          end
      end
  end.
Proof.
  unfold AccountClient_create_account. rewrite run_bind.
  destruct (not_pk pk); simpl; rewrite run_bind; unfold lift_result.
  all: destruct (KeyPair_from_private_key _) as [key_pair|e]; [|done].
  all: rewrite run_bind; destruct (Client_init net) as [client|e]; [|done].
  all: rewrite run_bind.
  all: by destruct (Contract_deploy _ _ _) as [[account_address|e] t1].
Qed.

(** X15.  A key of 0 is treated like no key at all: a random key is drawn in
    both cases.  The account that is returned holds the caller's key when
    it is not 0, and the random key otherwise. *)
Theorem create_account_key_choice
    (net : Net) (pk : option Z) (t0 t' : Trace) (account : AccountClient) :
  AccountClient_create_account net pk t0 = (Ok account, t') →
  AccountClient_create_account net (Some 0) t0
    = AccountClient_create_account net None t0
  ∧ AccountClient_private_key account =
    match pk with
    | Some key =>
        if bool_decide (key = 0) then get_random_private_key t0 else key
    | None => get_random_private_key t0
    end.
Proof.
  intros Hrun. split; [by rewrite !create_account_run|].
  rewrite create_account_run in Hrun.
  destruct (KeyPair_from_private_key _) as [key_pair|e] eqn:Hpair; [|done].
  apply from_private_key_derives in Hpair as [Hprivate _].
  destruct (Client_init net) as [client|e] eqn:Hclient; [|done].
  destruct (Contract_deploy _ _ _) as [[account_address|e] t1]; [|done].
  unfold AccountClient_init in Hrun. rewrite Hclient in Hrun.
  destruct (parse_address account_address) as [parsed|e]; [|done].
  injection Hrun as <- _. unfold AccountClient_private_key. simpl.
  rewrite Hprivate. destruct pk as [key|]; [|done]. simpl.
  by case_bool_decide.
Qed.

(** X16.  The account that is returned is bound to the contract deployed for
    its own key: the public key it holds is the one derived from its
    private key, the deployment was run with that public key as the only
    constructor argument, and the account's address is the parsed address
    of the deployed contract. *)
Theorem create_account_binds_key_and_address
    (net : Net) (pk : option Z) (t0 t' : Trace) (account : AccountClient) :
  AccountClient_create_account net pk t0 = (Ok account, t') →
  private_to_stark_key (private_key (_key_pair account))
    = Ok (public_key (_key_pair account))
  ∧ ∃ client deployed,
      Client_init net = Ok client
      ∧ base account = client
      ∧ Contract_deploy client [public_key (_key_pair account)] t0
        = (Ok deployed, t')
      ∧ parse_address deployed = Ok (address account).
Proof.
  intros Hrun. rewrite create_account_run in Hrun.
  destruct (KeyPair_from_private_key _) as [key_pair|e] eqn:Hpair; [|done].
  apply from_private_key_derives in Hpair as [Hprivate Hpublic].
  destruct (Client_init net) as [client|e] eqn:Hclient; [|done].
  destruct (Contract_deploy _ _ _) as [[deployed|e] t1] eqn:Hdeploy; [|done].
  unfold AccountClient_init in Hrun. rewrite Hclient in Hrun.
  destruct (parse_address deployed) as [parsed|e] eqn:Hparse; [|done].
  injection Hrun as <- <-. simpl. rewrite Hprivate.
  split; [done|]. by exists client, deployed.
Qed.

(** X17.  A key that [private_to_stark_key] refuses ends the creation before
    anything is deployed: the exception is the caller's and no call has
    been made. *)
Theorem create_account_refused_key
    (net : Net) (key : Z) (t0 : Trace) (e : exn) :
  key ≠ 0 →
  private_to_stark_key key = Raise e →
  AccountClient_create_account net (Some key) t0 = (Raise e, t0).
Proof.
  intros Hkey Hrefused. rewrite create_account_run. simpl.
  rewrite bool_decide_eq_false_2 by done. simpl.
  unfold KeyPair_from_private_key. by rewrite Hrefused.
Qed.

End AccountCreationProperties.

(** ** The further properties on the concrete worlds *)

Lemma call_contract_returns_parsed_values_witness :
  Client_call_contract (H := Demo.env) (Demo.client ["0x7"; "0x1f"] [])
    (InvokeFunction_object 1000 9 [] []) None None [] =
  (Ok [7; 31], [FeederCallContract (InvokeFunction_object 1000 9 [] []) None None]).
Proof.
  apply (@call_contract_returns_parsed_values Demo.env
           (Demo.client ["0x7"; "0x1f"] []) (InvokeFunction_object 1000 9 [] [])
           None None [] {[ "result" := ["0x7"; "0x1f"] ]} ["0x7"; "0x1f"]
           [7; 31]).
  - reflexivity.
  - vm_compute. reflexivity.
  - repeat constructor.
Defined.

Lemma call_contract_stops_at_first_bad_entry_witness :
  Client_call_contract (H := Demo.env) (Demo.client ["0x7"; "zz"; "0x1"] [])
    (InvokeFunction_object 1000 9 [] []) None None [] =
  (Raise (ValueError "invalid literal for int() with base 16"),
   [FeederCallContract (InvokeFunction_object 1000 9 [] []) None None]).
Proof.
  apply (@call_contract_stops_at_first_bad_entry Demo.env
           (Demo.client ["0x7"; "zz"; "0x1"] []) (InvokeFunction_object 1000 9 [] [])
           None None [] {[ "result" := ["0x7"; "zz"; "0x1"] ]}
           ["0x7"] "zz" ["0x1"] [7]).
  - reflexivity.
  - vm_compute. reflexivity.
  - repeat constructor.
  - reflexivity.
Defined.

Lemma call_contract_failures_witness :
  Client_call_contract (H := Demo.env) (DemoNet.client_of DemoNet.down_feeder)
    (InvokeFunction_object 1000 9 [] []) None None [] =
  (Raise (ExternalError "connection refused"),
   [FeederCallContract (InvokeFunction_object 1000 9 [] []) None None])
  ∧ Client_call_contract (H := Demo.env)
      (DemoNet.client_of DemoNet.blank_feeder)
      (InvokeFunction_object 1000 9 [] []) None None [] =
    (Raise (KeyError (JStr "result")),
     [FeederCallContract (InvokeFunction_object 1000 9 [] []) None None]).
Proof.
  split.
  - apply (proj1 (@call_contract_failures Demo.env
                    (DemoNet.client_of DemoNet.down_feeder)
                    (InvokeFunction_object 1000 9 [] []) None None [])).
    reflexivity.
  - apply (proj2 (@call_contract_failures Demo.env
                    (DemoNet.client_of DemoNet.blank_feeder)
                    (InvokeFunction_object 1000 9 [] []) None None []) ∅).
    + reflexivity.
    + vm_compute. reflexivity.
Defined.

Lemma rejected_poll_raises_witness :
  wait_for_tx_loop (H := Demo.env) 4
    (Demo.client [] [Demo.status_in_block "REJECTED" 12])
    Demo.tx_hash true 5 true [] =
  (Raise (TxRejected Demo.tx_hash), [FeederGetTransaction Demo.tx_hash None]).
Proof.
  apply (@rejected_poll_raises Demo.env 3
           (Demo.client [] [Demo.status_in_block "REJECTED" 12])
           Demo.tx_hash true true 5 [] (Demo.status_in_block "REJECTED" 12)).
  - reflexivity.
  - vm_compute. reflexivity.
Defined.

Lemma received_poll_continues_witness :
  wait_for_tx_loop (H := Demo.env) 1
    (Demo.client [] [Demo.status_only "RECEIVED"])
    Demo.tx_hash false 5 true [] =
  (Ok StillPolling, [FeederGetTransaction Demo.tx_hash None; Sleep 5]).
Proof.
  rewrite (@received_poll_continues Demo.env 0
             (Demo.client [] [Demo.status_only "RECEIVED"])
             Demo.tx_hash false true 5 [] (Demo.status_only "RECEIVED")).
  - reflexivity.
  - reflexivity.
  - vm_compute. reflexivity.
Defined.

Lemma unclassified_status_raises_witness :
  (wait_for_tx_loop (H := Demo.env) 1
     (Demo.client [] [Demo.status_only "ACCEPTED_ON_L2"])
     Demo.tx_hash false 5 true []).1 = Raise (KeyError (JStr "ACCEPTED_ON_L2"))
  ∧ (wait_for_tx_loop (H := Demo.env) 1
       (Demo.client [] [{[ "status" := JList [JStr "PENDING"] ]}])
       Demo.tx_hash false 5 true []).1
    = Raise (TypeError "unhashable type: 'list'").
Proof.
  split.
  - destruct (@unclassified_status_raises Demo.env 0
                (Demo.client [] [Demo.status_only "ACCEPTED_ON_L2"])
                Demo.tx_hash false true 5 []
                (Demo.status_only "ACCEPTED_ON_L2"))
      as [[_ Houtcome]|(status & Hfive & Hknown)].
    + reflexivity.
    + exact Houtcome.
    + exfalso.
      destruct status; try (vm_compute in Hknown; discriminate Hknown).
      repeat (apply elem_of_cons in Hfive as [Hfive|Hfive];
              [discriminate Hfive|]).
      by apply elem_of_nil in Hfive.
  - destruct (@unclassified_status_raises Demo.env 0
                (Demo.client [] [{[ "status" := JList [JStr "PENDING"] ]}])
                Demo.tx_hash false true 5 []
                {[ "status" := JList [JStr "PENDING"] ]})
      as [[_ Houtcome]|(status & _ & Hknown)].
    + reflexivity.
    + exact Houtcome.
    + exfalso. vm_compute in Hknown. discriminate Hknown.
Defined.

Lemma poll_failure_propagates_witness :
  wait_for_tx_loop (H := Demo.env) 3 (DemoNet.client_of DemoNet.down_feeder)
    Demo.tx_hash false 5 true [] =
  (Raise (ExternalError "connection refused"),
   [FeederGetTransaction Demo.tx_hash None]).
Proof.
  apply (@poll_failure_propagates Demo.env 2
           (DemoNet.client_of DemoNet.down_feeder) Demo.tx_hash false true 5
           [] (ExternalError "connection refused")).
  reflexivity.
Defined.

Lemma wait_for_tx_trace_shape_witness :
  Client_wait_for_tx (H := Demo.env) 5
    (Demo.client [] [Demo.status_only "NOT_RECEIVED";
                     Demo.status_only "RECEIVED";
                     Demo.status_in_block "ACCEPTED_ONCHAIN" 12])
    Demo.tx_hash true 5 [] =
    (Ok StillPolling, poll_trace [] Demo.tx_hash 5 5)
  ∨ ∃ k, (k < 5)%nat
      ∧ (Client_wait_for_tx (H := Demo.env) 5
           (Demo.client [] [Demo.status_only "NOT_RECEIVED";
                            Demo.status_only "RECEIVED";
                            Demo.status_in_block "ACCEPTED_ONCHAIN" 12])
           Demo.tx_hash true 5 []).2 =
        poll_trace [] Demo.tx_hash 5 k ++ [FeederGetTransaction Demo.tx_hash None]
      ∧ (Client_wait_for_tx (H := Demo.env) 5
           (Demo.client [] [Demo.status_only "NOT_RECEIVED";
                            Demo.status_only "RECEIVED";
                            Demo.status_in_block "ACCEPTED_ONCHAIN" 12])
           Demo.tx_hash true 5 []).1 ≠ Ok StillPolling.
Proof.
  apply (@wait_for_tx_trace_shape Demo.env). lia.
Defined.

Lemma wait_for_tx_returns_last_response_witness :
  ∃ asked result,
    [FeederGetTransaction Demo.tx_hash None; Sleep 5;
     FeederGetTransaction Demo.tx_hash None; Sleep 5;
     FeederGetTransaction Demo.tx_hash None]
      = asked ++ [FeederGetTransaction Demo.tx_hash None]
    ∧ fg_get_transaction
        (_feeder_gateway
           (Demo.client [] [Demo.status_only "NOT_RECEIVED";
                            Demo.status_only "RECEIVED";
                            Demo.status_in_block "PENDING" 12;
                            Demo.status_in_block "ACCEPTED_ONCHAIN" 12]))
        asked Demo.tx_hash None = Ok result
    ∧ result !! "block_number" = Some (JInt 12)
    ∧ result !! "status" = Some (JStr (TxStatus_name PENDING))
    ∧ (PENDING = ACCEPTED_ONCHAIN ∨ PENDING = PENDING ∧ false = false).
Proof.
  apply (@wait_for_tx_returns_last_response Demo.env 10
           (Demo.client [] [Demo.status_only "NOT_RECEIVED";
                            Demo.status_only "RECEIVED";
                            Demo.status_in_block "PENDING" 12;
                            Demo.status_in_block "ACCEPTED_ONCHAIN" 12])
           Demo.tx_hash false 5 []).
  vm_compute. reflexivity.
Defined.

Lemma wait_for_tx_polls_forever_witness :
  Client_wait_for_tx (H := Demo.env) 3
    (DemoNet.client_of (DemoNet.stuck_feeder "PENDING"))
    Demo.tx_hash true 5 [] =
  (Ok StillPolling,
   [FeederGetTransaction Demo.tx_hash None; Sleep 5;
    FeederGetTransaction Demo.tx_hash None; Sleep 5;
    FeederGetTransaction Demo.tx_hash None; Sleep 5]).
Proof.
  apply (@wait_for_tx_polls_forever Demo.env 3
           (DemoNet.client_of (DemoNet.stuck_feeder "PENDING"))
           Demo.tx_hash true 5 []).
  - lia.
  - intros t. exists (Demo.status_in_block "PENDING" 12).
    split; [reflexivity|]. right. split; [vm_compute|]; reflexivity.
Defined.

Lemma invoke_ignores_token_witness :
  AccountClient_add_transaction (H := Demo.env) (Demo.account 5 ["0x7"])
    Demo.invoke_tx (Some "token") [] =
  AccountClient_add_transaction (H := Demo.env) (Demo.account 5 ["0x7"])
    Demo.invoke_tx None [].
Proof.
  apply (@invoke_ignores_token Demo.env (Demo.account 5 ["0x7"])
           Demo.invoke_tx (Some "token") None []).
  discriminate.
Defined.

Lemma nonce_failure_stops_before_signing_witness :
  AccountClient_add_transaction (H := Demo.env)
    (DemoNet.account_of DemoNet.down_feeder) Demo.invoke_tx None [] =
  (Raise (ExternalError "connection refused"),
   [FeederCallContract (InvokeFunction_object 1000 9 [] []) None None])
  ∧ AccountClient_add_transaction (H := Demo.env)
      (Demo.account 5 []) Demo.invoke_tx None [] =
    (Raise IndexError,
     [FeederCallContract (InvokeFunction_object 1000 9 [] []) None None]).
Proof.
  split.
  - apply (@nonce_failure_stops_before_signing Demo.env
             (DemoNet.account_of DemoNet.down_feeder) Demo.invoke_tx None []).
    + discriminate.
    + reflexivity.
    + vm_compute. reflexivity.
    + reflexivity.
  - apply (@nonce_failure_stops_before_signing Demo.env
             (Demo.account 5 []) Demo.invoke_tx None []).
    + discriminate.
    + reflexivity.
    + vm_compute. reflexivity.
    + vm_compute. reflexivity.
Defined.

(** X18 at address 0, which the library does not accept, and at a nonce of
    [2 ^ 256 - 1], which is outside the field. *)
Lemma library_refusal_stops_the_run_witness :
  AccountClient_add_transaction (H := Demo.env)
    (Demo.account_at 0 5 ["0x7"]) Demo.invoke_tx None [] =
  (Raise (StarkException "out of range"), [])
  ∧ AccountClient_add_transaction (H := Demo.env)
      (Demo.account 5
         ["0xffffffffffffffffffffffffffffffffffffffffffffffffffffffffffffffff"])
      Demo.invoke_tx None [] =
    (Raise (AssertionError "element out of the field"),
     [FeederCallContract (InvokeFunction_object 1000 9 [] []) None None]).
Proof.
  split.
  - apply (proj1 (@library_refusal_stops_the_run Demo.env
                    (Demo.account_at 0 5 ["0x7"]) Demo.invoke_tx None []
                    ltac:(discriminate) eq_refl)).
    vm_compute. reflexivity.
  - apply (proj2 (@library_refusal_stops_the_run Demo.env
                    (Demo.account 5
                       ["0xffffffffffffffffffffffffffffffffffffffffffffffffffffffffffffffff"])
                    Demo.invoke_tx None [] ltac:(discriminate) eq_refl)
             (2 ^ 256 - 1) []).
    + vm_compute. reflexivity.
    + vm_compute. reflexivity.
    + vm_compute. reflexivity.
Defined.

Lemma execute_calldata_determines_intent_witness :
  contract_address Demo.invoke_tx = 77
  ∧ entry_point_selector Demo.invoke_tx = 88
  ∧ calldata Demo.invoke_tx = [1; 2; 3].
Proof.
  apply (@execute_calldata_determines_intent Demo.env
           (Demo.account 5 ["0x7"]) (Demo.account 6 ["0x7"; "0x9"])
           Demo.invoke_tx
           {| tx_type := INVOKE_FUNCTION; contract_address := 77;
              entry_point_selector := 88; calldata := [1; 2; 3];
              signature := [] |}
           None (Some "token") [] [Sleep 1]
           [FeederCallContract (InvokeFunction_object 1000 9 [] []) None None;
            Sign 28733452396 5]
           [FeederCallContract (InvokeFunction_object 1000 9 [] []) None None;
            Sign 28733452396 6]
           (InvokeFunction_object 1000 7 [77; 88; 3; 1; 2; 3; 7]
              [28733452401; 28733452391])
           (InvokeFunction_object 1000 7 [77; 88; 3; 1; 2; 3; 7]
              [28733452402; 28733452390])
           None None).
  - discriminate.
  - discriminate.
  - vm_compute. reflexivity.
  - vm_compute. reflexivity.
  - reflexivity.
Defined.

Lemma create_account_key_choice_witness :
  AccountClient_create_account (H := Demo.env) (H0 := DemoNet.deployment)
    tt (Some 0) [] =
  AccountClient_create_account (H := Demo.env) (H0 := DemoNet.deployment)
    tt None []
  ∧ AccountClient_private_key
      {| base := Demo.client ["0x0"] []; address := 4096;
         _key_pair := {| private_key := 42; public_key := 126 |} |} = 42.
Proof.
  apply (@create_account_key_choice Demo.env DemoNet.deployment tt (Some 0) []
           [GatewayAddTransaction
              {| tx_type := DEPLOY; contract_address := 0;
                 entry_point_selector := 0; calldata := [126];
                 signature := [] |} None]).
  vm_compute. reflexivity.
Defined.

Lemma create_account_binds_key_and_address_witness :
  private_to_stark_key (Environment := Demo.env) 7 = Ok 21
  ∧ ∃ client deployed,
      Client_init (AccountDeployment := DemoNet.deployment) tt = Ok client
      ∧ Demo.client ["0x0"] [] = client
      ∧ Contract_deploy (AccountDeployment := DemoNet.deployment) client [21] []
        = (Ok deployed,
           [GatewayAddTransaction
              {| tx_type := DEPLOY; contract_address := 0;
                 entry_point_selector := 0; calldata := [21];
                 signature := [] |} None])
      ∧ parse_address (AccountDeployment := DemoNet.deployment) deployed
        = Ok 4096.
Proof.
  apply (@create_account_binds_key_and_address Demo.env DemoNet.deployment
           tt (Some 7) []
           [GatewayAddTransaction
              {| tx_type := DEPLOY; contract_address := 0;
                 entry_point_selector := 0; calldata := [21];
                 signature := [] |} None]
           {| base := Demo.client ["0x0"] []; address := 4096;
              _key_pair := {| private_key := 7; public_key := 21 |} |}).
  vm_compute. reflexivity.
Defined.

Lemma create_account_refused_key_witness :
  AccountClient_create_account (H := Demo.env) (H0 := DemoNet.deployment)
    tt (Some (-5)) [] =
  (Raise (AssertionError "0 < priv_key < EC_ORDER"), []).
Proof.
  apply (@create_account_refused_key Demo.env DemoNet.deployment).
  - lia.
  - reflexivity.
Defined.
